(** * A shallow embedding of agent.py (class ECNUChatAgent)

    The agent is a loop around four methods: [_truncate_history],
    [_call_model], [_execute_action] and [run].  Python values are embedded
    as an inductive type, strings as lists of code points, the instance
    attributes as a record, and everything the agent asks of the outside
    world (HTTP, the shell, the file system) as a record of oracles that a
    small state-and-exception monad consults and records.

    What is left out: the [print] calls, which do not change the object;
    floats among the values; the [model] and [temperature] fields of the
    request, which are constants.  What is assumed: the console takes
    every text that is printed (a console that refuses one, as a UTF-8
    console refuses a lone surrogate, makes [print] raise, and the prints
    of [_execute_action] are outside its [try] blocks); [json.loads] is a
    function of its argument; [subprocess.run], [pathlib], [open] and
    [requests.post] answer as the world decides and raise only subclasses
    of [Exception]; a [KeyboardInterrupt] arrives at the prompt only. *)

From Stdlib Require Import List ZArith NArith Lia Bool String Ascii DecimalString.
Set Warnings "-register-all".
Import ListNotations.
Local Open Scope string_scope.
Local Open Scope list_scope.
Local Open Scope Z_scope.

(** ** Python strings

    A Python [str] is a sequence of code points, and [len] counts code
    points.  Literals are written as UTF-8 text and decoded by [u]. *)

Definition pystr := list N.

Fixpoint bytes_of_string (s : string) : list N :=
  match s with
  | EmptyString => []
  | String c s' => N_of_ascii c :: bytes_of_string s'
  end.

(** [utf8_go bs acc need]: [need] continuation bytes are still to be read
    into the code point accumulated in [acc]. *)
Fixpoint utf8_go (bs : list N) (acc : N) (need : nat) : pystr :=
  match bs with
  | [] => []
  | b :: bs' =>
      match need with
      | O =>
          if (b <? 128)%N then b :: utf8_go bs' 0%N 0%nat
          else if (b <? 224)%N then utf8_go bs' (b - 192)%N 1%nat
          else if (b <? 240)%N then utf8_go bs' (b - 224)%N 2%nat
          else utf8_go bs' (b - 240)%N 3%nat
      | S O => (acc * 64 + (b - 128))%N :: utf8_go bs' 0%N 0%nat
      | S n => utf8_go bs' (acc * 64 + (b - 128))%N n
      end
  end.

Definition u (s : string) : pystr := utf8_go (bytes_of_string s) 0%N 0%nat.

Definition len {A : Type} (l : list A) : Z := Z.of_nat (List.length l).

Fixpoint pystr_eqb (a b : pystr) : bool :=
  match a, b with
  | [], [] => true
  | x :: a', y :: b' => (x =? y)%N && pystr_eqb a' b'
  | _, _ => false
  end.

Definition dq : string := String "034"%char EmptyString.
Definition nl : string := String "010"%char EmptyString.
Definition q (s : string) : string := (dq ++ s ++ dq)%string.

(** [str.join] *)
Fixpoint join (sep : pystr) (parts : list pystr) : pystr :=
  match parts with
  | [] => []
  | [p] => p
  | p :: rest => p ++ sep ++ join sep rest
  end.

(** Decimal digits of an int, as [str(n)] and [json.dumps(n)] print it. *)
Definition str_of_Z (z : Z) : pystr := u (NilZero.string_of_int (Z.to_int z)).

Definition hex_digit (n : N) : N :=
  if (n <? 10)%N then (48 + n)%N else (87 + n)%N.

(** ['{0:04x}'.format(n)] for [n < 0x10000] *)
Definition hex4 (n : N) : pystr :=
  [ hex_digit (N.shiftr n 12 mod 16); hex_digit (N.shiftr n 8 mod 16);
    hex_digit (N.shiftr n 4 mod 16); hex_digit (n mod 16) ]%N.

Definition hex2 (n : N) : pystr :=
  [ hex_digit (N.shiftr n 4 mod 16); hex_digit (n mod 16) ]%N.

(** ** Python values

    The values the agent handles come out of [json.loads] or are built
    from literals: [None], booleans, integers, strings, lists and dicts
    with string keys.  Floats are left out: no branch of the agent
    computes with one.  A dict is kept as an association list in insertion
    order; lookup takes the first binding of a key. *)

Inductive pyval : Type :=
| PyNone
| PyBool (b : bool)
| PyInt (z : Z)
| PyStr (s : pystr)
| PyList (l : list pyval)
| PyDict (d : list (pystr * pyval)).

Definition pydict := list (pystr * pyval).

Fixpoint dict_lookup (d : pydict) (k : pystr) : option pyval :=
  match d with
  | [] => None
  | (k', v) :: d' => if pystr_eqb k' k then Some v else dict_lookup d' k
  end.

(** [d.get(k)] and [d.get(k, default)] *)
Definition dict_get_default (d : pydict) (k : pystr) (default : pyval) : pyval :=
  match dict_lookup d k with
  | Some v => v
  | None => default
  end.

Definition dict_get (d : pydict) (k : pystr) : pyval := dict_get_default d k PyNone.

(** Truth value of a value, as [not x] and [if x] take it. *)
Definition truthy (v : pyval) : bool :=
  match v with
  | PyNone => false
  | PyBool b => b
  | PyInt z => negb (z =? 0)
  | PyStr s => match s with [] => false | _ => true end
  | PyList l => match l with [] => false | _ => true end
  | PyDict d => match d with [] => false | _ => true end
  end.

Definition is_none (v : pyval) : bool :=
  match v with PyNone => true | _ => false end.

Definition isinstance_dict (v : pyval) : bool :=
  match v with PyDict _ => true | _ => false end.

(** [x == "literal"]: only a [str] equals a [str]. *)
Definition eq_str (v : pyval) (s : pystr) : bool :=
  match v with PyStr t => pystr_eqb t s | _ => false end.

(** ** json.dumps (default settings: ensure_ascii, separators ", " and ": ") *)

Definition json_escape_char (c : N) : pystr :=
  if (c =? 92)%N then u "\\"
  else if (c =? 34)%N then [92; 34]%N
  else if (c =? 8)%N then u "\b"
  else if (c =? 12)%N then u "\f"
  else if (c =? 10)%N then u "\n"
  else if (c =? 13)%N then u "\r"
  else if (c =? 9)%N then u "\t"
  else if ((32 <=? c) && (c <=? 126))%N then [c]
  else if (c <? 65536)%N then u "\u" ++ hex4 c
  else
    let n := (c - 65536)%N in
    u "\u" ++ hex4 (N.lor 55296 (N.land (N.shiftr n 10) 1023)) ++
    u "\u" ++ hex4 (N.lor 56320 (N.land n 1023)).

Definition json_string (s : pystr) : pystr :=
  [34%N] ++ flat_map json_escape_char s ++ [34%N].

Fixpoint json_dumps (v : pyval) : pystr :=
  match v with
  | PyNone => u "null"
  | PyBool true => u "true"
  | PyBool false => u "false"
  | PyInt z => str_of_Z z
  | PyStr s => json_string s
  | PyList l => u "[" ++ join (u ", ") (map json_dumps l) ++ u "]"
  | PyDict d =>
      u "{" ++
      join (u ", ")
        (map (fun kv => json_string (fst kv) ++ u ": " ++ json_dumps (snd kv)) d)
      ++ u "}"
  end.

(** ** More of the Python runtime: str(), strip(), format() *)

Arguments u : simpl never.

Definition type_name (v : pyval) : pystr :=
  match v with
  | PyNone => u "NoneType"
  | PyBool _ => u "bool"
  | PyInt _ => u "int"
  | PyStr _ => u "str"
  | PyList _ => u "list"
  | PyDict _ => u "dict"
  end.

(** [repr] of a [str].  Code points from U+00A1 on are taken as printable;
    CPython consults the Unicode database there. *)
Definition repr_escape_char (quote c : N) : pystr :=
  if (c =? 92)%N then u "\\"
  else if (c =? quote)%N then [92; c]%N
  else if (c =? 9)%N then u "\t"
  else if (c =? 10)%N then u "\n"
  else if (c =? 13)%N then u "\r"
  else if ((c <? 32) || (c =? 127))%N then u "\x" ++ hex2 c
  else if (c <? 127)%N then [c]
  else if (c <? 161)%N then u "\x" ++ hex2 c
  else [c].

Definition repr_str (s : pystr) : pystr :=
  let has c := existsb (N.eqb c) s in
  let quote := if has 39%N && negb (has 34%N) then 34%N else 39%N in
  [quote] ++ flat_map (repr_escape_char quote) s ++ [quote].

Fixpoint py_repr (v : pyval) : pystr :=
  match v with
  | PyNone => u "None"
  | PyBool true => u "True"
  | PyBool false => u "False"
  | PyInt z => str_of_Z z
  | PyStr s => repr_str s
  | PyList l => u "[" ++ join (u ", ") (map py_repr l) ++ u "]"
  | PyDict d =>
      u "{" ++
      join (u ", ") (map (fun kv => repr_str (fst kv) ++ u ": " ++ py_repr (snd kv)) d)
      ++ u "}"
  end.

(** [str(v)], which is what an f-string puts in place of [{v}]. *)
Definition py_str (v : pyval) : pystr :=
  match v with
  | PyStr s => s
  | _ => py_repr v
  end.

(** [str.isspace] of one code point *)
Definition isspace (c : N) : bool :=
  (((9 <=? c) && (c <=? 13)) || ((28 <=? c) && (c <=? 32)) || (c =? 133) ||
   (c =? 160) || (c =? 5760) || ((8192 <=? c) && (c <=? 8202)) ||
   (c =? 8232) || (c =? 8233) || (c =? 8239) || (c =? 8287) || (c =? 12288))%N.

Fixpoint lstrip (s : pystr) : pystr :=
  match s with
  | c :: s' => if isspace c then lstrip s' else s
  | [] => []
  end.

Fixpoint rstrip (s : pystr) : pystr :=
  match s with
  | [] => []
  | c :: s' =>
      match rstrip s' with
      | [] => if isspace c then [] else [c]
      | kept => c :: kept
      end
  end.

(** [s.strip()] *)
Definition strip (s : pystr) : pystr := rstrip (lstrip s).

(** [s.lower()] on the letters A-Z.  No other code point lower-cases to a
    lone ASCII letter of [exit] or [quit], so the comparison made in [run]
    is the one made here. *)
Definition lower (s : pystr) : pystr :=
  map (fun c => if ((65 <=? c) && (c <=? 90))%N then (c + 32)%N else c) s.

(** [needle in haystack] for strings *)
Fixpoint starts_with (p s : pystr) : bool :=
  match p, s with
  | [], _ => true
  | x :: p', y :: s' => (x =? y)%N && starts_with p' s'
  | _ :: _, [] => false
  end.

Fixpoint is_substring (p s : pystr) : bool :=
  starts_with p s ||
  match s with
  | [] => false
  | _ :: s' => is_substring p s'
  end.

(** ** The agent object *)

(** One entry of [session_history]: the dict [{"role": r, "content": c}]. *)
Record turn : Type := Turn { role : pystr; content : pystr }.

Definition turn_obj (t : turn) : pyval :=
  PyDict [ (u "role", PyStr (role t)); (u "content", PyStr (content t)) ].

Record Agent : Type := mkAgent {
  api_key : pystr;
  base_url : pystr;
  session_history : list turn;
  max_context_length : Z;
  system_prompt : pystr
}.

Definition system_prompt_text : string :=
  String.concat nl
    [ "你是一个强大的AI助手，被设计为一个可以在Linux命令行环境中执行任务的智能代理。你的目标是理解和执行用户的指令，通过执行系统命令、读写文件等方式来完成任务。";
      EmptyString;
      "重要规则：";
      "1.  你必须严格遵循以下JSON格式来输出你的计划和行动，不允许有任何其他文字或解释。如果需要向用户输出信息，则使用 " ++ q "action" ++ ": " ++ q "speak" ++ "。";
      "    {{" ++ q "action" ++ ": " ++ q "command" ++ ", " ++ q "command" ++ ": " ++ q "要执行的具体命令" ++ ", " ++ q "explanation" ++ ": " ++ q "为什么要执行此命令" ++ "}}";
      "    {{" ++ q "action" ++ ": " ++ q "read_file" ++ ", " ++ q "path" ++ ": " ++ q "/path/to/file" ++ ", " ++ q "explanation" ++ ": " ++ q "为什么要读取此文件" ++ "}}";
      "    {{" ++ q "action" ++ ": " ++ q "write_file" ++ ", " ++ q "path" ++ ": " ++ q "/path/to/file" ++ ", " ++ q "content" ++ ": " ++ q "文件的新内容" ++ ", " ++ q "explanation" ++ ": " ++ q "为什么要写入此文件" ++ "}}";
      "    {{" ++ q "action" ++ ": " ++ q "speak" ++ ", " ++ q "message" ++ ": " ++ q "你想对用户说的话" ++ ", " ++ q "explanation" ++ ": " ++ q "为什么需要说这句话" ++ "}}";
      "2.  你拥有sudo权限，如果需要，可以直接在命令前加 'sudo'。";
      "3.  在执行任何写入文件或修改系统的关键操作前，务必先读取文件内容，确认后再写入。";
      "4.  每次只输出一个JSON对象。执行完该动作并收到结果后，再进行下一步。";
      "5.  你的回答应该简洁明了，专注于任务本身。";
      "6.  你当前的工作目录是: {working_dir}";
      "7.  今天是: {current_date}" ]%string.

Definition __init__ (key : pystr) : Agent :=
  {| api_key := key;
     base_url := u "https://chat.ecnu.edu.cn/open/api/v1";
     session_history := [];
     max_context_length := 30000;
     system_prompt := u system_prompt_text |}.

Definition set_history (a : Agent) (h : list turn) : Agent :=
  {| api_key := api_key a;
     base_url := base_url a;
     session_history := h;
     max_context_length := max_context_length a;
     system_prompt := system_prompt a |}.

(** ** _truncate_history (lines 34-45) *)

(** [item_chars = len(json.dumps(item))] *)
Definition item_chars (item : turn) : Z := len (json_dumps (turn_obj item)).
Arguments item_chars : simpl never.

(** The [for item in reversed(self.session_history)] loop: [items] is what
    is left of the reversed history, [truncated_history] and [total_chars]
    are the two loop variables. *)
Fixpoint truncate_loop (max_len : Z) (items : list turn) (total_chars : Z)
    (truncated_history : list turn) : list turn :=
  match items with
  | [] => truncated_history
  | item :: rest =>
      if total_chars + item_chars item >? max_len
      then truncated_history                                     (* break *)
      else truncate_loop max_len rest (total_chars + item_chars item)
             (item :: truncated_history)                         (* insert(0, item) *)
  end.

Definition _truncate_history (self : Agent) : Agent :=
  set_history self
    (truncate_loop (max_context_length self) (rev (session_history self))
       (len (system_prompt self)) []).

(** Sum of the serialized lengths of a list of turns. *)
Fixpoint history_chars (h : list turn) : Z :=
  match h with
  | [] => 0
  | item :: rest => item_chars item + history_chars rest
  end.

(** The agent's own measure of a context: the stored prompt plus the turns. *)
Definition context_chars (self : Agent) : Z :=
  len (system_prompt self) + history_chars (session_history self).

(** The turns the loop accepts before it breaks: a prefix of the reversed
    history. *)
Fixpoint accepted (max_len : Z) (items : list turn) (total_chars : Z) : list turn :=
  match items with
  | [] => []
  | item :: rest =>
      if total_chars + item_chars item >? max_len then []
      else item :: accepted max_len rest (total_chars + item_chars item)
  end.

(** * Effects: exceptions, the outside world, and a monad for both *)

Inductive exn_class : Type :=
| TypeError | KeyError | IndexError | AttributeError | ValueError
| OSError | PermissionError | UnicodeDecodeError | RuntimeError | EOFError
| JSONDecodeError                         (* json.JSONDecodeError *)
| TimeoutExpired                          (* subprocess.TimeoutExpired *)
| RequestException (response : option Z). (* requests.exceptions.RequestException
                                             and its subclasses, with the status
                                             code of [e.response] if there is one *)

(** An exception object: its class and [str(e)].  Every class above
    derives from [Exception]; [KeyboardInterrupt] is met at the prompt only
    and is an input event of [run]. *)
Record exn : Type := Exn { exn_class_of : exn_class; exn_str : pystr }.

Inductive result (A : Type) : Type :=
| Ok (a : A)
| Raise (e : exn).
Arguments Ok {A} a.
Arguments Raise {A} e.

(** What [subprocess.run(..., capture_output=True, text=True)] returns. *)
Record CompletedProcess : Type := mkCompleted {
  returncode : Z;
  stdout : pystr;
  stderr : pystr
}.

(** What [requests.post] returns: the status line and what [.json()]
    gives (a value, or an exception). *)
Record Response : Type := mkResponse {
  status_code : Z;
  reason : pystr;
  json_body : result pyval
}.

(** Calls that leave the process, in the order they were made. *)
Inductive event : Type :=
| EvPost (url : pystr) (messages : list turn)
| EvSleep (seconds : Z)
| EvRun (command : pyval)
| EvResolve (path : pystr)
| EvIsFile (path : pystr)
| EvReadText (path : pystr) (encoding : pystr)
| EvMkdir (path : pystr)
| EvOpen (path : pystr)
| EvWrite (path : pystr) (data : pystr).

(** The outside world.  Every oracle but [getcwd] and [json_loads] (a pure
    function of its argument) is asked with the number of calls made so
    far, so that two calls with the same arguments may differ.
    [json_loads] returns the parsed value or raises: a JSONDecodeError for
    a text that is not JSON, another exception where the parser gives up
    for another reason (an integer beyond the digit limit, nesting beyond
    the recursion limit). *)
Record World : Type := mkWorld {
  getcwd : pystr;
  json_loads : pystr -> result pyval;
  requests_post : nat -> pystr -> list turn -> result Response;
  subprocess_run : nat -> pyval -> result CompletedProcess;
  path_resolve : nat -> pystr -> result pystr;
  path_is_file : nat -> pystr -> result bool;
  path_read_text : nat -> pystr -> pystr -> result pystr;
  parent_mkdir : nat -> pystr -> result unit;
  open_w : nat -> pystr -> result unit;
  file_write : nat -> pystr -> pystr -> result unit
}.

(** The state a method runs in: the object, and the calls made so far. *)
Record State : Type := mkState {
  self : Agent;
  clock : nat;
  trace : list event
}.

Definition M (A : Type) : Type := State -> result A * State.

Definition ret {A} (a : A) : M A := fun s => (Ok a, s).

Definition bind {A B} (m : M A) (k : A -> M B) : M B :=
  fun s =>
    match m s with
    | (Ok a, s') => k a s'
    | (Raise e, s') => (Raise e, s')
    end.

Definition raise {A} (e : exn) : M A := fun s => (Raise e, s).

Definition lift {A} (r : result A) : M A := fun s => (r, s).

(** [try: body / except ... as e: handler e].  A handler that does not
    match re-raises; what a handler raises is not caught again. *)
Definition try_except {A} (body : M A) (handler : exn -> M A) : M A :=
  fun s =>
    match body s with
    | (Ok a, s') => (Ok a, s')
    | (Raise e, s') => handler e s'
    end.

(** One call to the world: recorded, counted, answered by the oracle. *)
Definition tick (ev : event) (s : State) : State :=
  {| self := self s; clock := S (clock s); trace := trace s ++ [ev] |}.

Definition call {A} (ev : event) (oracle : nat -> result A) : M A :=
  fun s => (oracle (clock s), tick ev s).

Definition get_self : M Agent := fun s => (Ok (self s), s).

Definition with_self (f : Agent -> Agent) (s : State) : State :=
  {| self := f (self s); clock := clock s; trace := trace s |}.

Definition modify_self (f : Agent -> Agent) : M unit :=
  fun s => (Ok tt, with_self f s).

(** [wp m Q s]: running [m] from [s] ends in an outcome and a state that
    satisfy [Q]. *)
Definition wp {A} (m : M A) (Q : result A -> State -> Prop) (s : State) : Prop :=
  Q (fst (m s)) (snd (m s)).

Declare Scope monad_scope.
Delimit Scope monad_scope with monad.
Notation "x <- c1 ;; c2" := (bind c1 (fun x => c2))
  (at level 61, c1 at next level, right associativity) : monad_scope.
Notation "c1 ;; c2" := (bind c1 (fun _ => c2))
  (at level 61, right associativity) : monad_scope.
Notation "m >>= k" := (bind m k) (at level 62, left associativity) : monad_scope.
Local Open Scope monad_scope.

(** ** Operations on values that may raise *)

Definition not_subscriptable {A} (v : pyval) : result A :=
  Raise (Exn TypeError (u "'" ++ type_name v ++ u "' object is not subscriptable")).

(** ["key" in v] *)
Definition py_contains (v : pyval) (key : pystr) : result bool :=
  match v with
  | PyDict d => Ok (match dict_lookup d key with Some _ => true | None => false end)
  | PyList l => Ok (existsb (fun x => eq_str x key) l)
  | PyStr s => Ok (is_substring key s)
  | _ => Raise (Exn TypeError
                  (u "argument of type '" ++ type_name v ++ u "' is not iterable"))
  end.

(** [v["key"]] *)
Definition getitem_str (v : pyval) (key : pystr) : result pyval :=
  match v with
  | PyDict d =>
      match dict_lookup d key with
      | Some x => Ok x
      | None => Raise (Exn KeyError (repr_str key))
      end
  | PyList _ => Raise (Exn TypeError (u "list indices must be integers or slices, not str"))
  | PyStr _ => Raise (Exn TypeError (u "string indices must be integers, not 'str'"))
  | _ => not_subscriptable v
  end.

(** [v[0]] *)
Definition getitem_0 (v : pyval) : result pyval :=
  match v with
  | PyList (x :: _) => Ok x
  | PyList [] => Raise (Exn IndexError (u "list index out of range"))
  | PyStr (c :: _) => Ok (PyStr [c])
  | PyStr [] => Raise (Exn IndexError (u "string index out of range"))
  | PyDict _ => Raise (Exn KeyError (u "0"))
  | _ => not_subscriptable v
  end.

(** [len(v)] *)
Definition py_len (v : pyval) : result Z :=
  match v with
  | PyStr s => Ok (len s)
  | PyList l => Ok (len l)
  | PyDict d => Ok (len d)
  | _ => Raise (Exn TypeError
                  (u "object of type '" ++ type_name v ++ u "' has no len()"))
  end.

(** [v.strip()] *)
Definition py_strip (v : pyval) : result pystr :=
  match v with
  | PyStr s => Ok (strip s)
  | _ => Raise (Exn AttributeError
                  (u "'" ++ type_name v ++ u "' object has no attribute 'strip'"))
  end.

(** [str.format] with keyword arguments, for plain replacement fields: [{{] and
    [}}] are literal braces, [{name}] is looked up. *)
Fixpoint format_go (kwargs : list (pystr * pystr)) (s : pystr)
    (field : option pystr) : result pystr :=
  let emit (c : pystr) (r : result pystr) : result pystr :=
    match r with Ok t => Ok (c ++ t) | Raise e => Raise e end in
  match s with
  | [] =>
      match field with
      | None => Ok []
      | Some _ => Raise (Exn ValueError (u "expected '}' before end of string"))
      end
  | c :: rest =>
      match field with
      | Some name =>
          if (c =? 125)%N then
            match find (fun kv => pystr_eqb (fst kv) name) kwargs with
            | Some kv => emit (snd kv) (format_go kwargs rest None)
            | None => Raise (Exn KeyError (repr_str name))
            end
          else format_go kwargs rest (Some (name ++ [c]))
      | None =>
          if (c =? 123)%N then
            match rest with
            | c' :: rest' =>
                if (c' =? 123)%N then emit [123%N] (format_go kwargs rest' None)
                else format_go kwargs rest (Some [])
            | [] => Raise (Exn ValueError (u "Single '{' encountered in format string"))
            end
          else if (c =? 125)%N then
            match rest with
            | c' :: rest' =>
                if (c' =? 125)%N then emit [125%N] (format_go kwargs rest' None)
                else Raise (Exn ValueError (u "Single '}' encountered in format string"))
            | [] => Raise (Exn ValueError (u "Single '}' encountered in format string"))
            end
          else emit [c] (format_go kwargs rest None)
      end
  end.

Definition str_format (template : pystr) (kwargs : list (pystr * pystr)) : result pystr :=
  format_go kwargs template None.

(** * The methods that talk to the world *)

Definition NL : pystr := [10%N].

Definition result_dict (text : pystr) : pyval :=
  PyDict [ (u "result", PyStr text) ].

Definition speak_action (message explanation : pystr) : pyval :=
  PyDict [ (u "action", PyStr (u "speak"));
           (u "message", PyStr message);
           (u "explanation", PyStr explanation) ].

(** [Path(x)]: anything but a string is refused. *)
Definition Path (x : pyval) : M pystr :=
  match x with
  | PyStr s => ret s
  | _ => raise (Exn TypeError
                  (u "expected str, bytes or os.PathLike object, not " ++ type_name x))
  end.

(** [Path(x).resolve()] *)
Definition Path_resolve (w : World) (x : pyval) : M pystr :=
  p <- Path x ;;
  call (EvResolve p) (fun t => path_resolve w t p).

(** ** _execute_action (agent.py, lines 129-244) *)

Definition command_branch (w : World) (command : pyval) : M pyval :=
  if negb (truthy command) then
    ret (result_dict (u "No command provided in action object."))
  else
    try_except
      (result <- call (EvRun command) (fun t => subprocess_run w t command) ;;
       let status := if returncode result =? 0 then u "SUCCESS" else u "FAILED" in
       ret (result_dict
              (u "Command '" ++ py_str command ++ u "' finished with return code " ++
               str_of_Z (returncode result) ++ u "." ++ NL ++
               u "Status: " ++ status ++ NL ++
               u "STDOUT:" ++ NL ++ stdout result ++ NL ++
               u "STDERR:" ++ NL ++ stderr result)))
      (fun e =>
         match exn_class_of e with
         | TimeoutExpired =>
             ret (result_dict
                    (u "Command '" ++ py_str command ++ u "' timed out after 30 seconds."))
         | _ =>
             ret (result_dict
                    (u "An error occurred while executing command '" ++ py_str command ++
                     u "': " ++ exn_str e))
         end).

Definition read_file_branch (w : World) (file_path_str : pyval) : M pyval :=
  if negb (truthy file_path_str) then
    ret (result_dict (u "No file path provided in action object."))
  else
    file_path <- Path_resolve w file_path_str ;;
    try_except
      (is_file <- call (EvIsFile file_path) (fun t => path_is_file w t file_path) ;;
       if negb is_file then
         ret (result_dict
                (u "File does not exist or is not a regular file: " ++ file_path))
       else
         let success content :=
           ret (result_dict
                  (u "Successfully read file '" ++ file_path ++ u "'. Content:" ++ NL ++
                   content)) in
         try_except
           (content <- call (EvReadText file_path (u "utf-8"))
                         (fun t => path_read_text w t file_path (u "utf-8")) ;;
            success content)
           (fun e =>
              match exn_class_of e with
              | UnicodeDecodeError =>
                  try_except
                    (content <- call (EvReadText file_path (u "latin-1"))
                                  (fun t => path_read_text w t file_path (u "latin-1")) ;;
                     success content)
                    (fun _ =>
                       ret (result_dict
                              (u "Could not read file " ++ file_path ++
                               u " with common encodings.")))
              | _ => raise e
              end))
      (fun e =>
         match exn_class_of e with
         | PermissionError =>
             ret (result_dict (u "Permission denied when reading file: " ++ file_path))
         | _ =>
             ret (result_dict
                    (u "An error occurred while reading file '" ++ file_path ++
                     u "': " ++ exn_str e))
         end).

(** [f.write(content)] *)
Definition f_write (w : World) (file_path : pystr) (content : pyval) : M unit :=
  match content with
  | PyStr data => call (EvWrite file_path data) (fun t => file_write w t file_path data)
  | _ => raise (Exn TypeError
                  (u "write() argument must be str, not " ++ type_name content))
  end.

(** The part of the write_file branch after its guard. *)
Definition write_file_proceed (w : World) (file_path_str content : pyval) : M pyval :=
  file_path <- Path_resolve w file_path_str ;;
  try_except
    (call (EvMkdir file_path) (fun t => parent_mkdir w t file_path) ;;
     call (EvOpen file_path) (fun t => open_w w t file_path) ;;
     f_write w file_path content ;;
     ret (result_dict (u "Successfully wrote content to file '" ++ file_path ++ u "'.")))
    (fun e =>
       match exn_class_of e with
       | PermissionError =>
           ret (result_dict (u "Permission denied when writing file: " ++ file_path))
       | _ =>
           ret (result_dict
                  (u "An error occurred while writing file '" ++ file_path ++
                   u "': " ++ exn_str e))
       end).

Definition no_path_or_content : pyval :=
  result_dict (u "No file path or content provided in action object.").

Definition write_file_branch (w : World) (file_path_str content : pyval) : M pyval :=
  if negb (truthy file_path_str) || is_none content then ret no_path_or_content
  else write_file_proceed w file_path_str content.

Definition _execute_action (w : World) (action_obj : pyval) : M pyval :=
  match action_obj with
  | PyDict d =>
      let action_type := dict_get d (u "action") in
      if eq_str action_type (u "command") then
        command_branch w (dict_get d (u "command"))
      else if eq_str action_type (u "read_file") then
        read_file_branch w (dict_get d (u "path"))
      else if eq_str action_type (u "write_file") then
        write_file_branch w (dict_get d (u "path")) (dict_get d (u "content"))
      else if eq_str action_type (u "speak") then
        let message := dict_get_default d (u "message") (PyStr []) in
        ret (result_dict (u "Agent spoke: " ++ py_str message))
      else
        ret (result_dict (u "Unknown action type received: " ++ py_str action_type))
  | _ =>
      ret (result_dict (u "Action object is not a dictionary: " ++ py_str action_obj))
  end.

(** ** _call_model (lines 47-126) *)

(** [response.status_code == 504 or 500 <= response.status_code < 600] *)
Definition is_upstream_error (status : Z) : bool :=
  (status =? 504) || ((status >=? 500) && (status <? 600)).

(** [response.raise_for_status()] *)
Definition raise_for_status (url : pystr) (r : Response) : M unit :=
  let http_error kind :=
    raise (Exn (RequestException (Some (status_code r)))
             (str_of_Z (status_code r) ++ kind ++ reason r ++ u " for url: " ++ url)) in
  if (400 <=? status_code r) && (status_code r <? 500) then http_error (u " Client Error: ")
  else if (500 <=? status_code r) && (status_code r <? 600) then http_error (u " Server Error: ")
  else ret tt.

(** [time.sleep(seconds)] *)
Definition time_sleep (seconds : Z) : M unit :=
  if seconds <? 0 then raise (Exn ValueError (u "sleep length must be non-negative"))
  else call (EvSleep seconds) (fun _ => Ok tt).

(** How one pass through the body of the retry loop ends. *)
Inductive loop_exit : Type :=
| Continue
| Return (v : pyval).

Definition attempt_try (w : World) (url : pystr) (messages : list turn)
    (max_retries backoff_factor attempt : Z) : M loop_exit :=
  response <- call (EvPost url messages) (fun t => requests_post w t url messages) ;;
  retry <- (if is_upstream_error (status_code response) then
              if attempt <? max_retries - 1 then
                time_sleep (backoff_factor * 2 ^ attempt) ;; ret true
              else
                raise_for_status url response ;; ret false
            else ret false) ;;
  if retry : bool then ret Continue
  else
    raise_for_status url response ;;
    response_data <- lift (json_body response) ;;
    has_choices <- lift (py_contains response_data (u "choices")) ;;
    nonempty <- (if has_choices : bool then
                   choices <- lift (getitem_str response_data (u "choices")) ;;
                   n <- lift (py_len choices) ;;
                   ret (n >? 0)
                 else ret false) ;;
    if nonempty : bool then
      choices <- lift (getitem_str response_data (u "choices")) ;;
      choice <- lift (getitem_0 choices) ;;
      message <- lift (getitem_str choice (u "message")) ;;
      content <- lift (getitem_str message (u "content")) ;;
      stripped <- lift (py_strip content) ;;
      try_except
        (action_json <- lift (json_loads w stripped) ;;
         ret (Return action_json))
        (fun e =>
           match exn_class_of e with
           | JSONDecodeError =>
               ret (Return (speak_action (u "模型返回了非预期格式: " ++ py_str content)
                              (u "解析模型输出失败")))
           | _ => raise e
           end)
    else
      ret (Return (speak_action (u "API返回了意外的格式。") (u "API响应错误"))).

Definition attempt_except (max_retries backoff_factor attempt : Z) (e : exn) : M loop_exit :=
  match exn_class_of e with
  | RequestException response =>
      let api_failed :=
        ret (Return (speak_action (u "API call failed: " ++ exn_str e) (u "API调用失败"))) in
      match response with
      | Some status =>
          if is_upstream_error status && (attempt <? max_retries - 1) then
            time_sleep (backoff_factor * 2 ^ attempt) ;; ret Continue
          else api_failed
      | None => api_failed
      end
  | _ =>
      ret (Return (speak_action
                     (u "An unexpected error occurred during API call: " ++ exn_str e)
                     (u "发生未知错误")))
  end.

(** What [_call_model] returns for a completion whose text is [content]:
    what the text parses to; the parse-failure speak action when it is
    not JSON; the speak action of the outer handler when [json.loads]
    fails in another way. *)
Definition completion_outcome (w : World) (content : pystr) : pyval :=
  match json_loads w (strip content) with
  | Ok action_json => action_json
  | Raise e =>
      match exn_class_of e with
      | JSONDecodeError =>
          speak_action (u "模型返回了非预期格式: " ++ content) (u "解析模型输出失败")
      | _ =>
          speak_action (u "An unexpected error occurred during API call: " ++ exn_str e)
            (u "发生未知错误")
      end
  end.

(** [for attempt in range(max_retries)]: [remaining] passes are left. *)
Fixpoint attempts (w : World) (url : pystr) (messages : list turn)
    (max_retries backoff_factor : Z) (remaining : nat) (attempt : Z) : M pyval :=
  match remaining with
  | O =>
      ret (speak_action
             (u "Failed to get a valid response from the API after " ++
              str_of_Z max_retries ++ u " attempts.")
             (u "API多次调用失败"))
  | S remaining' =>
      exit <- try_except
                (attempt_try w url messages max_retries backoff_factor attempt)
                (attempt_except max_retries backoff_factor attempt) ;;
      match exit with
      | Return v => ret v
      | Continue =>
          attempts w url messages max_retries backoff_factor remaining' (attempt + 1)
      end
  end.

(** The URL of [requests.post]. *)
Definition endpoint (a : Agent) : pystr := base_url a ++ u "/chat/completions".

(** The [messages] of the request: the rendered system prompt, the
    history, the prompt. *)
Definition build_messages (w : World) (a : Agent) (prompt : pystr) : result (list turn) :=
  match str_format (system_prompt a)
          [ (u "working_dir", getcwd w); (u "current_date", u "2025-12-10") ] with
  | Ok rendered =>
      Ok ([Turn (u "system") rendered] ++ session_history a ++ [Turn (u "user") prompt])
  | Raise e => Raise e
  end.

Definition _call_model (w : World) (prompt : pystr) (max_retries backoff_factor : Z)
    : M pyval :=
  a <- get_self ;;
  messages <- lift (build_messages w a prompt) ;;
  attempts w (endpoint a) messages
    max_retries backoff_factor (Z.to_nat max_retries) 0.

(** The HTTP calls in a trace. *)
Definition is_post (ev : event) : bool :=
  match ev with EvPost _ _ => true | _ => false end.

Definition count_posts (tr : list event) : Z := len (filter is_post tr).

(** A response body with at least one choice whose message content is the
    string [content]. *)
Definition carries_content (response_data : pyval) (content : pystr) : Prop :=
  exists d choice rest message,
    response_data = PyDict d /\
    dict_lookup d (u "choices") = Some (PyList (PyDict choice :: rest)) /\
    dict_lookup choice (u "message") = Some (PyDict message) /\
    dict_lookup message (u "content") = Some (PyStr content).

(** The text the agent speaks after a last 5xx answer [r]. *)
Definition server_error_text (url : pystr) (r : Response) : pystr :=
  u "API call failed: " ++ str_of_Z (status_code r) ++ u " Server Error: " ++
  reason r ++ u " for url: " ++ url.

(** The parts of a request: [messages] is the rendered system prompt, then
    the history, then the prompt. *)
Definition request_system (messages : list turn) : pystr :=
  match messages with
  | t :: _ => content t
  | [] => []
  end.

Definition request_history (messages : list turn) : list turn :=
  removelast (tl messages).

Definition request_prompt (messages : list turn) : pystr :=
  content (last messages (Turn [] [])).

(** The size of a request as the claim of the data model counts it: the
    synthesized system prompt and the serialized turns of the history. *)
Definition request_chars (messages : list turn) : Z :=
  len (request_system messages) + history_chars (request_history messages).

Definition request_fits (budget : Z) (ev : event) : bool :=
  match ev with
  | EvPost _ messages => request_chars messages <=? budget
  | _ => true
  end.

(** The sizes of the requests of a trace, in order. *)
Definition request_sizes (tr : list event) : list Z :=
  flat_map (fun ev => match ev with
                      | EvPost _ messages => [request_chars messages]
                      | _ => []
                      end) tr.

(** [s'] comes after [s]: the same object, and a trace grown by events
    that satisfy [P]. *)
Definition extends (P : event -> Prop) (s s' : State) : Prop :=
  self s' = self s /\ exists evs, trace s' = trace s ++ evs /\ Forall P evs.

Definition not_post (ev : event) : Prop := is_post ev = false.

(** What one call of [_call_model] may do: post [messages] to [url], sleep. *)
Definition sends (url : pystr) (messages : list turn) (ev : event) : Prop :=
  match ev with
  | EvPost url' messages' => url' = url /\ messages' = messages
  | EvSleep _ => True
  | _ => False
  end.

(** The same, seen from the request: it carries [history] and [prompt]. *)
Definition asks (history : list turn) (prompt : pystr) (ev : event) : Prop :=
  match ev with
  | EvPost _ messages =>
      request_history messages = history /\ request_prompt messages = prompt
  | EvSleep _ => True
  | _ => False
  end.

(** A request that continues an input (its prompt is empty) fits the
    budget of the agent [a], measured as [_truncate_history] measures:
    the stored prompt and the serialized turns. *)
Definition continuation_fits (a : Agent) (ev : event) : Prop :=
  match ev with
  | EvPost _ messages =>
      request_prompt messages = [] ->
      len (system_prompt a) + history_chars (request_history messages)
      <= max_context_length a
  | _ => True
  end.

Definition same_config (a0 a : Agent) : Prop :=
  system_prompt a = system_prompt a0 /\
  max_context_length a = max_context_length a0.

(** What [run] maintains, for the configuration [a0] it started with. *)
Definition run_invariant (a0 : Agent) (s : State) : Prop :=
  same_config a0 (self s) /\ Forall (continuation_fits a0) (trace s).

(** ** run (lines 247-310) *)

(** [self.session_history.append(t)] *)
Definition record (t : turn) (a : Agent) : Agent :=
  set_history a (session_history a ++ [t]).

Definition append_turn (t : turn) : M unit := modify_self (record t).

(** The two turns one Decide-Execute cycle records. *)
Definition assistant_turn (action_to_take : pyval) : turn :=
  Turn (u "assistant") (json_dumps action_to_take).

Definition result_turn (text : pyval) : turn :=
  Turn (u "user") (u "Action result:" ++ NL ++ py_str text).

Definition max_steps_per_input : Z := 10.

(** The inner [while step_count < max_steps_per_input] loop; it yields
    [final_response]. *)
Fixpoint inner_loop (w : World) (user_input : pystr) (fuel : nat)
    (step_count : Z) (final_response : pyval) : M pyval :=
  match fuel with
  | O => ret final_response
  | S fuel' =>
      if step_count <? max_steps_per_input then
        let step_count := step_count + 1 in
        action_to_take <-
          _call_model w (if step_count =? 1 then user_input else []) 3 1 ;;
        match action_to_take with
        | PyDict d =>
            execution_result <- _execute_action w action_to_take ;;
            append_turn (assistant_turn action_to_take) ;;
            text <- lift (getitem_str execution_result (u "result")) ;;
            append_turn (result_turn text) ;;
            if eq_str (dict_get d (u "action")) (u "speak") then
              ret (dict_get_default d (u "message") (PyStr []))
            else
              modify_self _truncate_history ;;
              inner_loop w user_input fuel' step_count final_response
        | _ => ret final_response
        end
      else ret final_response
  end.

(** What the prompt [input("User> ")] can bring. *)
Inductive input_event : Type :=
| Line (text : pystr)
| CtrlC.

(** The outer [while True] loop, fed with the user's lines; the end of
    the list is the end of standard input.  Every exception of one turn
    is caught at the bottom of the loop, which then stops. *)
Fixpoint run_loop (w : World) (stdin : list input_event) : M unit :=
  match stdin with
  | [] => ret tt                                  (* EOFError: reported, break *)
  | CtrlC :: _ => ret tt                          (* KeyboardInterrupt: break *)
  | Line text :: rest =>
      let user_input := strip text in
      match user_input with
      | [] => run_loop w rest                     (* continue *)
      | _ =>
          if existsb (pystr_eqb (lower user_input)) [u "exit"; u "quit"] then ret tt
          else
            try_except
              (append_turn (Turn (u "user") user_input) ;;
               inner_loop w user_input (Z.to_nat max_steps_per_input) 0 (PyStr []) ;;
               ret true)
              (fun _ => ret false)
            >>= fun go_on => if go_on : bool then run_loop w rest else ret tt
      end
  end.

Definition run (w : World) (stdin : list input_event) : M unit := run_loop w stdin.

Definition initial_state (key : pystr) : State :=
  {| self := __init__ key; clock := 0; trace := [] |}.

(** * Concrete worlds and inputs *)

Module Examples.

(** A completion whose only choice carries [text]. *)
Definition completion (text : pystr) : pyval :=
  PyDict [ (u "choices",
            PyList [ PyDict [ (u "message", PyDict [ (u "content", PyStr text) ]) ] ]) ].

(** What [json.loads] raises on a text that is not JSON. *)
Definition not_json : exn :=
  Exn JSONDecodeError (u "Expecting value: line 1 column 1 (char 0)").

(** A world whose endpoint always answers 200 with the completion [text],
    which [json.loads] parses to [parsed] ([None]: it is not JSON); the
    shell and the file system succeed with empty answers. *)
Definition world_answering (text : pystr) (parsed : option pyval) : World :=
  {| getcwd := u "/root";
     json_loads := fun s =>
       if pystr_eqb s (strip text) then
         match parsed with
         | Some v => Ok v
         | None => Raise not_json
         end
       else Raise not_json;
     requests_post := fun _ _ _ => Ok (mkResponse 200 (u "OK") (Ok (completion text)));
     subprocess_run := fun _ _ => Ok (mkCompleted 0 [] []);
     path_resolve := fun _ p => Ok p;
     path_is_file := fun _ _ => Ok true;
     path_read_text := fun _ _ _ => Ok [];
     parent_mkdir := fun _ _ => Ok tt;
     open_w := fun _ _ => Ok tt;
     file_write := fun _ _ _ => Ok tt |}.

(** A world whose endpoint always answers with [status]. *)
Definition world_status (status : Z) : World :=
  {| getcwd := u "/root";
     json_loads := fun _ => Raise not_json;
     requests_post := fun _ _ _ =>
       Ok (mkResponse status (u "Gateway Timeout") (Ok PyNone));
     subprocess_run := fun _ _ => Ok (mkCompleted 0 [] []);
     path_resolve := fun _ p => Ok p;
     path_is_file := fun _ _ => Ok true;
     path_read_text := fun _ _ _ => Ok [];
     parent_mkdir := fun _ _ => Ok tt;
     open_w := fun _ _ => Ok tt;
     file_write := fun _ _ _ => Ok tt |}.

Definition hello_fields : pydict :=
  [ (u "action", PyStr (u "speak")); (u "message", PyStr (u "hello")) ].

Definition hello_speak : pyval := PyDict hello_fields.

(** The endpoint answers with a speak action, serialized. *)
Definition hello_text : pystr := json_dumps hello_speak.

Definition world_hello : World := world_answering hello_text (Some hello_speak).

(** The agent right after the user typed [hi]. *)
Definition state_hi : State :=
  with_self (record (Turn (u "user") (u "hi"))) (initial_state []).

(** ... and right after the model answered. *)
Definition after_hello : State := snd (_call_model world_hello (u "hi") 3 1 state_hi).

(** A turn whose content is 30000 letters, and a short one. *)
Definition long_turn : turn := Turn (u "user") (repeat 97%N 30000).
Definition short_turn : turn := Turn (u "user") (u "hi").

(** The agent after [__init__], with a history put in place. *)
Definition two_turns : Agent := set_history (__init__ []) [long_turn; short_turn].

(** A read_file action whose path is a number. *)
Definition read_path_5 : pyval :=
  PyDict [ (u "action", PyStr (u "read_file")); (u "path", PyInt 5) ].

(** A write_file action with an empty content. *)
Definition write_empty : pydict :=
  [ (u "action", PyStr (u "write_file"));
    (u "path", PyStr (u "/tmp/notes.txt"));
    (u "content", PyStr []) ].

(** A write_file action whose path is the number 0. *)
Definition write_path_zero : pydict :=
  [ (u "action", PyStr (u "write_file"));
    (u "path", PyInt 0);
    (u "content", PyStr (u "x")) ].

(** The endpoint answers with the text [42], which is valid JSON. *)
Definition world_42 : World := world_answering (u "42") (Some (PyInt 42)).

(** The endpoint answers with an integer of 5000 digits, over which
    [json.loads] gives up. *)
Definition digit_limit : exn :=
  Exn ValueError (u "Exceeds the limit (4300 digits) for integer string conversion").

Definition world_digits : World :=
  {| getcwd := u "/root";
     json_loads := fun _ => Raise digit_limit;
     requests_post := fun _ _ _ =>
       Ok (mkResponse 200 (u "OK") (Ok (completion (repeat 57%N 5000))));
     subprocess_run := fun _ _ => Ok (mkCompleted 0 [] []);
     path_resolve := fun _ p => Ok p;
     path_is_file := fun _ _ => Ok true;
     path_read_text := fun _ _ _ => Ok [];
     parent_mkdir := fun _ _ => Ok tt;
     open_w := fun _ _ => Ok tt;
     file_write := fun _ _ _ => Ok tt |}.

(** The endpoint answers with prose. *)
Definition world_prose : World := world_answering (u "I cannot do that") None.

Definition ok_prose : Response :=
  mkResponse 200 (u "OK") (Ok (completion (u "I cannot do that"))).

(** A first line of 30000 letters. *)
Definition long_line : list input_event := [ Line (repeat 97%N 30000) ].

End Examples.

(** * More concrete inputs *)

Module MoreExamples.
Import Examples.

(** An agent whose history is two short turns. *)
Definition chatty : Agent :=
  set_history (__init__ []) [ short_turn; Turn (u "assistant") (u "hello") ].

(** An agent whose prompt alone is larger than its budget. *)
Definition tiny_budget : Agent :=
  {| api_key := [];
     base_url := [];
     session_history := [ short_turn ];
     max_context_length := 10;
     system_prompt := u "a prompt of more than ten code points" |}.

End MoreExamples.

(** * The events of a retried call *)

(** What [k] failed attempts leave in the trace, from attempt number
    [attempt] on: each posts the request and sleeps
    [backoff_factor * 2 ** attempt] seconds. *)
Fixpoint retry_events (url : pystr) (messages : list turn) (backoff_factor : Z)
    (attempt : Z) (k : nat) : list event :=
  match k with
  | O => []
  | S k' =>
      EvPost url messages :: EvSleep (backoff_factor * 2 ^ attempt) ::
      retry_events url messages backoff_factor (attempt + 1) k'
  end.

(** What [_call_model] returns when the exception [e] ends the call. *)
Definition failure_action (e : exn) : pyval :=
  match exn_class_of e with
  | RequestException _ =>
      speak_action (u "API call failed: " ++ exn_str e) (u "API调用失败")
  | _ =>
      speak_action (u "An unexpected error occurred during API call: " ++ exn_str e)
        (u "发生未知错误")
  end.

(** The text the agent speaks after a 4xx answer [r]. *)
Definition client_error_text (url : pystr) (r : Response) : pystr :=
  u "API call failed: " ++ str_of_Z (status_code r) ++ u " Client Error: " ++
  reason r ++ u " for url: " ++ url.

(** The request one call of [_call_model] sends, given the rendered
    system prompt. *)
Definition request_of (a : Agent) (rendered prompt : pystr) : event :=
  EvPost (endpoint a)
    ([Turn (u "system") rendered] ++ session_history a ++ [Turn (u "user") prompt]).

Module TransportExamples.
Import Examples.

(** An endpoint that answers 504 to the first two requests and then the
    completion of [world_hello]. *)
Definition world_flaky : World :=
  {| getcwd := u "/root";
     json_loads := json_loads world_hello;
     requests_post := fun t url messages =>
       if (t <? 4)%nat then Ok (mkResponse 504 (u "Gateway Timeout") (Ok PyNone))
       else requests_post world_hello t url messages;
     subprocess_run := subprocess_run world_hello;
     path_resolve := path_resolve world_hello;
     path_is_file := path_is_file world_hello;
     path_read_text := path_read_text world_hello;
     parent_mkdir := parent_mkdir world_hello;
     open_w := open_w world_hello;
     file_write := file_write world_hello |}.

(** An endpoint that refuses the key. *)
Definition unauthorized : Response := mkResponse 401 (u "Unauthorized") (Ok PyNone).

Definition world_401 : World :=
  {| getcwd := u "/root";
     json_loads := fun _ => Raise not_json;
     requests_post := fun _ _ _ => Ok unauthorized;
     subprocess_run := subprocess_run world_hello;
     path_resolve := path_resolve world_hello;
     path_is_file := path_is_file world_hello;
     path_read_text := path_read_text world_hello;
     parent_mkdir := parent_mkdir world_hello;
     open_w := open_w world_hello;
     file_write := file_write world_hello |}.

(** An endpoint that cannot be reached. *)
Definition refused : exn := Exn (RequestException None) (u "Connection refused").

Definition world_down : World :=
  {| getcwd := u "/root";
     json_loads := fun _ => Raise not_json;
     requests_post := fun _ _ _ => Raise refused;
     subprocess_run := subprocess_run world_hello;
     path_resolve := path_resolve world_hello;
     path_is_file := path_is_file world_hello;
     path_read_text := path_read_text world_hello;
     parent_mkdir := parent_mkdir world_hello;
     open_w := open_w world_hello;
     file_write := file_write world_hello |}.

(** An endpoint that answers 200 with an empty list of choices. *)
Definition no_choice : Response :=
  mkResponse 200 (u "OK") (Ok (PyDict [ (u "choices", PyList []) ])).

Definition world_no_choice : World :=
  {| getcwd := u "/root";
     json_loads := fun _ => Raise not_json;
     requests_post := fun _ _ _ => Ok no_choice;
     subprocess_run := subprocess_run world_hello;
     path_resolve := path_resolve world_hello;
     path_is_file := path_is_file world_hello;
     path_read_text := path_read_text world_hello;
     parent_mkdir := parent_mkdir world_hello;
     open_w := open_w world_hello;
     file_write := file_write world_hello |}.

End TransportExamples.

(** * Kinds of events *)

(** Looking at the file system without changing it. *)
Definition reads_only (ev : event) : Prop :=
  match ev with
  | EvResolve _ | EvIsFile _ | EvReadText _ _ => True
  | _ => False
  end.

Module ExecutorExamples.
Import Examples.

Definition ls_command : pydict :=
  [ (u "action", PyStr (u "command")); (u "command", PyStr (u "ls")) ].

Definition read_notes : pydict :=
  [ (u "action", PyStr (u "read_file")); (u "path", PyStr (u "/tmp/notes.txt")) ].

Definition write_number : pydict :=
  [ (u "action", PyStr (u "write_file"));
    (u "path", PyStr (u "/tmp/notes.txt"));
    (u "content", PyInt 7) ].

Definition dance : pydict := [ (u "action", PyStr (u "dance")) ].

Definition no_command : pydict := [ (u "action", PyStr (u "command")) ].

Definition bad_utf8 : exn := Exn UnicodeDecodeError (u "invalid start byte").

(** A file system whose only trouble is that files are not UTF-8. *)
Definition world_latin1 : World :=
  {| getcwd := u "/root";
     json_loads := fun _ => Raise not_json;
     requests_post := requests_post world_hello;
     subprocess_run := subprocess_run world_hello;
     path_resolve := fun _ p => Ok p;
     path_is_file := fun _ _ => Ok true;
     path_read_text := fun _ _ encoding =>
       if pystr_eqb encoding (u "utf-8") then Raise bad_utf8 else Ok (u "caf");
     parent_mkdir := parent_mkdir world_hello;
     open_w := open_w world_hello;
     file_write := file_write world_hello |}.

End ExecutorExamples.

(** * What a run leaves alone, and how much it may ask *)

(** The attributes that [__init__] sets and that no method assigns. *)
Definition config (a : Agent) : pystr * pystr * Z * pystr :=
  (api_key a, base_url a, max_context_length a, system_prompt a).

(** The shell commands in a trace. *)
Definition is_run (ev : event) : bool :=
  match ev with EvRun _ => true | _ => false end.

Definition count_runs (tr : list event) : Z := len (filter is_run tr).

(** The test [user_input.lower() in ['exit', 'quit']] on a raw line. *)
Definition is_exit (text : pystr) : bool :=
  match strip text with
  | [] => false
  | user_input => existsb (pystr_eqb (lower user_input)) [u "exit"; u "quit"]
  end.

Module RunExamples.
Import Examples.

(** The endpoint answers with the text [42]. *)
Definition after_42 : State := snd (_call_model world_42 (u "hi") 3 1 state_hi).

End RunExamples.

(** * Reasoning about monadic code *)

Section WpRules.
Context {A B : Type}.

Lemma wp_ret (a : A) Q s : Q (Ok a) s -> wp (ret a) Q s.
Proof. exact (fun H => H). Qed.

Lemma wp_raise e (Q : result A -> State -> Prop) s : Q (Raise e) s -> wp (raise e) Q s.
Proof. exact (fun H => H). Qed.

Lemma wp_lift (r : result A) Q s : Q r s -> wp (lift r) Q s.
Proof. exact (fun H => H). Qed.

Lemma wp_call ev (oracle : nat -> result A) Q s :
  (forall r, Q r (tick ev s)) -> wp (call ev oracle) Q s.
Proof. intros H. apply H. Qed.

Lemma wp_call_at ev (oracle : nat -> result A) Q s :
  Q (oracle (clock s)) (tick ev s) -> wp (call ev oracle) Q s.
Proof. exact (fun H => H). Qed.

Lemma wp_bind (m : M A) (k : A -> M B) Q s :
  wp m (fun r s' => match r with
                    | Ok a => wp (k a) Q s'
                    | Raise e => Q (Raise e) s'
                    end) s ->
  wp (bind m k) Q s.
Proof.
  unfold wp, bind. destruct (m s) as [[a|e] s']; exact (fun H => H).
Qed.

Lemma wp_try (body : M A) (handler : exn -> M A) Q s :
  wp body (fun r s' => match r with
                       | Ok a => Q (Ok a) s'
                       | Raise e => wp (handler e) Q s'
                       end) s ->
  wp (try_except body handler) Q s.
Proof.
  unfold wp, try_except. destruct (body s) as [[a|e] s']; exact (fun H => H).
Qed.

Lemma wp_conseq (m : M A) (Q Q' : result A -> State -> Prop) s :
  wp m Q s -> (forall r s', Q r s' -> Q' r s') -> wp m Q' s.
Proof. unfold wp. intros H HQ. apply HQ, H. Qed.

End WpRules.

Lemma wp_get_self Q s : Q (Ok (self s)) s -> wp get_self Q s.
Proof. exact (fun H => H). Qed.

Lemma wp_modify_self f Q s : Q (Ok tt) (with_self f s) -> wp (modify_self f) Q s.
Proof. exact (fun H => H). Qed.

(** One step through a monadic program; world answers and branch
    conditions are split as they are met. *)
Ltac wp_step :=
  cbv beta iota zeta;
  lazymatch goal with
  | |- wp (bind _ _) _ _ => apply wp_bind
  | |- wp (ret _) _ _ => apply wp_ret
  | |- wp (raise _) _ _ => apply wp_raise
  | |- wp (lift _) _ _ => apply wp_lift
  | |- wp (call _ _) _ _ => apply wp_call; intros [?|?]
  | |- wp (try_except _ _) _ _ => apply wp_try
  | |- wp get_self _ _ => apply wp_get_self
  | |- wp (modify_self _) _ _ => apply wp_modify_self
  | |- wp (if ?b then _ else _) _ _ => destruct b eqn:?
  | |- wp (match ?x with _ => _ end) _ _ => destruct x eqn:?
  | |- match ?x with _ => _ end => destruct x eqn:?
  end.

Ltac wp_run := repeat wp_step; cbv beta iota zeta.

(** ** States that come after one another *)

Lemma extends_refl P s : extends P s s.
Proof. split; [reflexivity|]. exists []. rewrite app_nil_r. auto. Qed.

Lemma extends_tick (P : event -> Prop) s0 s ev :
  extends P s0 s -> P ev -> extends P s0 (tick ev s).
Proof.
  intros [Hself [evs [Htrace Hall]]] Hev. split; [exact Hself|].
  exists (evs ++ [ev]). cbn [tick trace]. rewrite Htrace, app_assoc.
  split; [reflexivity|]. apply Forall_app. auto.
Qed.

Lemma extends_weaken (P P' : event -> Prop) s0 s :
  (forall ev, P ev -> P' ev) -> extends P s0 s -> extends P' s0 s.
Proof.
  intros HP [Hself [evs [Htrace Hall]]]. split; [exact Hself|].
  exists evs. split; [exact Htrace|]. eapply Forall_impl; eauto.
Qed.

(** * Strings *)

Lemma pystr_eqb_eq (a b : pystr) : pystr_eqb a b = true <-> a = b.
Proof.
  revert b; induction a as [|x a IH]; intros [|y b]; simpl;
    try (split; [discriminate | congruence]); try tauto.
  rewrite andb_true_iff, N.eqb_eq, IH. split.
  - intros [-> ->]; reflexivity.
  - intros H; injection H; auto.
Qed.

Lemma pystr_eqb_refl (a : pystr) : pystr_eqb a a = true.
Proof. apply pystr_eqb_eq; reflexivity. Qed.

(** * Truncation keeps a fitting suffix *)

Module Truncation.
Import Examples.

Lemma truncate_loop_accepted max_len items :
  forall total acc,
    truncate_loop max_len items total acc = rev (accepted max_len items total) ++ acc.
Proof.
  induction items as [|item rest IH]; intros total acc; simpl.
  - reflexivity.
  - destruct (total + item_chars item >? max_len); simpl.
    + reflexivity.
    + rewrite IH, <- app_assoc. reflexivity.
Qed.

Lemma accepted_prefix max_len items :
  forall total, exists rest, items = accepted max_len items total ++ rest.
Proof.
  induction items as [|item tl IH]; intros total; simpl.
  - exists []; reflexivity.
  - destruct (total + item_chars item >? max_len).
    + exists (item :: tl); reflexivity.
    + destruct (IH (total + item_chars item)) as [rest Hrest].
      exists rest. simpl. f_equal. exact Hrest.
Qed.

Lemma history_chars_app h1 h2 :
  history_chars (h1 ++ h2) = history_chars h1 + history_chars h2.
Proof.
  induction h1 as [|x h1 IH]; cbn [accepted history_chars app rev]; [reflexivity|].
  rewrite IH. lia.
Qed.

Lemma history_chars_rev h : history_chars (rev h) = history_chars h.
Proof.
  induction h as [|x h IH]; cbn [accepted history_chars app rev]; [reflexivity|].
  rewrite history_chars_app, IH. cbn [accepted history_chars app rev]. lia.
Qed.

Lemma accepted_bound max_len items :
  forall total,
    total <= max_len ->
    total + history_chars (accepted max_len items total) <= max_len.
Proof.
  induction items as [|item tl IH]; intros total Hle; cbn [accepted history_chars app rev].
  - lia.
  - destruct (total + item_chars item >? max_len) eqn:Hgt; cbn [accepted history_chars app rev].
    + lia.
    + assert (Hfit : total + item_chars item <= max_len)
        by (rewrite Z.gtb_ltb in Hgt; apply Z.ltb_ge in Hgt; exact Hgt).
      specialize (IH _ Hfit). lia.
Qed.

Lemma accepted_idem max_len items :
  forall total,
    accepted max_len (accepted max_len items total) total = accepted max_len items total.
Proof.
  induction items as [|item tl IH]; intros total; cbn [accepted history_chars app rev].
  - reflexivity.
  - destruct (total + item_chars item >? max_len) eqn:Hgt; cbn [accepted history_chars app rev].
    + reflexivity.
    + rewrite Hgt, IH. reflexivity.
Qed.

Lemma truncated_history_eq (self : Agent) :
  session_history (_truncate_history self) =
  rev (accepted (max_context_length self) (rev (session_history self))
         (len (system_prompt self))).
Proof.
  unfold _truncate_history, set_history; cbn [session_history].
  rewrite truncate_loop_accepted, app_nil_r. reflexivity.
Qed.

(** What truncation leaves is a suffix of what it was given. *)
Lemma truncate_suffix (self : Agent) :
  exists dropped,
    session_history self = dropped ++ session_history (_truncate_history self).
Proof.
  rewrite truncated_history_eq.
  destruct (accepted_prefix (max_context_length self) (rev (session_history self))
              (len (system_prompt self))) as [rest Hrest].
  exists (rev rest).
  rewrite <- rev_app_distr, <- Hrest, rev_involutive. reflexivity.
Qed.

(** With a prompt that fits the budget on its own, the truncated context
    fits the budget. *)
Lemma truncate_fits (self : Agent) :
  len (system_prompt self) <= max_context_length self ->
  context_chars (_truncate_history self) <= max_context_length self.
Proof.
  intros Hle. unfold context_chars.
  rewrite truncated_history_eq, history_chars_rev.
  change (system_prompt (_truncate_history self)) with (system_prompt self).
  apply accepted_bound; exact Hle.
Qed.

Lemma accepted_head max_len item rest total :
  total + item_chars item <= max_len ->
  exists more, accepted max_len (item :: rest) total = item :: more.
Proof.
  intros Hfit. cbn [accepted].
  destruct (total + item_chars item >? max_len) eqn:Hgt.
  - rewrite Z.gtb_ltb in Hgt. apply Z.ltb_lt in Hgt. lia.
  - eexists; reflexivity.
Qed.

(** C2, as stated, fails: a single turn that is larger than the budget is
    dropped, and the history the agent is left with is empty. *)
Lemma truncate_can_empty_history :
  session_history (set_history (__init__ []) [long_turn]) <> [] /\
  session_history (_truncate_history (set_history (__init__ []) [long_turn])) = [].
Proof.
  split.
  - discriminate.
  - vm_compute. reflexivity.
Qed.

(** C2, amended: when the most recent turn fits the budget together with
    the system prompt, truncation keeps it, so the history it leaves is
    not empty and still ends with that turn. *)
Theorem truncate_keeps_latest_when_it_fits (self : Agent) (older : list turn)
    (latest : turn) :
  session_history self = older ++ [latest] ->
  len (system_prompt self) + item_chars latest <= max_context_length self ->
  session_history (_truncate_history self) <> [] /\
  exists kept, session_history (_truncate_history self) = kept ++ [latest].
Proof.
  intros Hhist Hfit.
  rewrite truncated_history_eq, Hhist, rev_app_distr. cbn [rev app].
  destruct (accepted_head (max_context_length self) latest (rev older)
              (len (system_prompt self)) Hfit) as [more Hmore].
  rewrite Hmore. cbn [rev]. split.
  - intros Hnil. apply app_eq_nil in Hnil. destruct Hnil as [_ Hnil]. discriminate.
  - exists (rev more). reflexivity.
Qed.

Lemma truncate_keeps_latest_witness :
  session_history (_truncate_history two_turns) <> [] /\
  exists kept, session_history (_truncate_history two_turns) = kept ++ [short_turn].
Proof.
  assert (Hhist : session_history two_turns = [long_turn] ++ [short_turn])
    by reflexivity.
  assert (Hfit : len (system_prompt two_turns) + item_chars short_turn
                 <= max_context_length two_turns)
    by (vm_compute; discriminate).
  exact (truncate_keeps_latest_when_it_fits two_turns [long_turn] short_turn Hhist Hfit).
Defined.

Lemma init_prompt_fits key history :
  len (system_prompt (set_history (__init__ key) history)) <= 30000.
Proof. vm_compute. discriminate. Qed.

Lemma init_budget key history :
  max_context_length (set_history (__init__ key) history) = 30000.
Proof. reflexivity. Qed.

Lemma context_chars_eq (a : Agent) :
  context_chars a = len (system_prompt a) + history_chars (session_history a).
Proof. reflexivity. Qed.

(** The other half of the amended C2: a most recent turn that does not
    fit is dropped, and every older turn with it. *)
Lemma truncate_drops_unfitting_latest (self : Agent) (older : list turn)
    (latest : turn) :
  session_history self = older ++ [latest] ->
  max_context_length self < len (system_prompt self) + item_chars latest ->
  session_history (_truncate_history self) = [].
Proof.
  intros Hhist Hover.
  rewrite truncated_history_eq, Hhist, rev_app_distr. cbn [rev app accepted].
  replace (len (system_prompt self) + item_chars latest >? max_context_length self)
    with true by (symmetry; rewrite Z.gtb_ltb; apply Z.ltb_lt; exact Hover).
  reflexivity.
Qed.

(** C3: for the agent as [__init__] configures it, whatever its history,
    truncation leaves a suffix of that history (a prefix of oldest turns is
    dropped, nothing else moves), and the serialized lengths of the turns
    kept plus the length of the system prompt stay within 30000. *)
Theorem truncate_suffix_within_budget (key : pystr) (history : list turn) :
  let self := _truncate_history (set_history (__init__ key) history) in
  (exists dropped, history = dropped ++ session_history self) /\
  len (system_prompt self) + history_chars (session_history self) <= 30000.
Proof.
  intros self. split.
  - exact (truncate_suffix (set_history (__init__ key) history)).
  - rewrite <- context_chars_eq. subst self.
    rewrite <- (init_budget key history).
    apply truncate_fits. rewrite init_budget. apply init_prompt_fits.
Qed.

(** C10: truncating twice is truncating once. *)
Theorem truncate_idempotent (self : Agent) :
  _truncate_history (_truncate_history self) = _truncate_history self.
Proof.
  unfold _truncate_history at 1.
  rewrite truncated_history_eq.
  change (max_context_length (_truncate_history self)) with (max_context_length self).
  change (system_prompt (_truncate_history self)) with (system_prompt self).
  rewrite truncate_loop_accepted, app_nil_r, rev_involutive, accepted_idem.
  unfold _truncate_history, set_history. cbn [api_key base_url max_context_length system_prompt].
  rewrite truncate_loop_accepted, app_nil_r. reflexivity.
Qed.

End Truncation.

(** * The executor *)

Module Executor.
Import Examples.

(** Two texts that differ in their first code point. *)
Ltac different_text :=
  let H := fresh in intros H; vm_compute in H; discriminate H.

(** With its console output taken (the assumption of this file), the
    command branch never raises: whatever the payload and whatever the
    world answers, it hands back a result dict. *)
Lemma command_branch_returns (w : World) (command : pyval) (s : State) :
  wp (command_branch w command)
     (fun r _ => exists text, r = Ok (result_dict text)) s.
Proof.
  unfold command_branch. wp_run; eauto.
Qed.

(** So does the executor as a whole, under the same assumption, on
    every payload that is not a read_file or write_file action: a value
    that is no dict, an unknown kind, a command of any type, a speak
    action. *)
Lemma execute_action_returns_off_paths (w : World) (action_obj : pyval) (s : State) :
  (forall d, action_obj = PyDict d ->
             eq_str (dict_get d (u "action")) (u "read_file") = false /\
             eq_str (dict_get d (u "action")) (u "write_file") = false) ->
  wp (_execute_action w action_obj)
     (fun r _ => exists text, r = Ok (result_dict text)) s.
Proof.
  intros Hkind. unfold _execute_action.
  destruct action_obj as [| | | | |d]; try (apply wp_ret; eauto).
  destruct (Hkind d eq_refl) as [Hread Hwrite]. rewrite Hread, Hwrite.
  destruct (eq_str (dict_get d (u "action")) (u "command")).
  - apply command_branch_returns.
  - destruct (eq_str (dict_get d (u "action")) (u "speak")); apply wp_ret; eauto.
Qed.

(** What the write branch can hand back once it is past its guard. *)
Lemma write_file_proceed_not_guard (w : World) (file_path_str content : pyval)
    (s : State) :
  wp (write_file_proceed w file_path_str content)
     (fun r _ => r <> Ok no_path_or_content) s.
Proof.
  unfold write_file_proceed, Path_resolve, Path, f_write, no_path_or_content.
  wp_run; try discriminate; different_text.
Qed.

Lemma dict_get_lookup (d : pydict) (k : pystr) :
  dict_get d k = match dict_lookup d k with Some v => v | None => PyNone end.
Proof. reflexivity. Qed.

Lemma write_file_dispatch (w : World) (d : pydict) :
  dict_lookup d (u "action") = Some (PyStr (u "write_file")) ->
  _execute_action w (PyDict d) =
  write_file_branch w (dict_get d (u "path")) (dict_get d (u "content")).
Proof.
  intros Hkind. unfold _execute_action.
  rewrite (dict_get_lookup d (u "action")), Hkind.
  replace (eq_str (PyStr (u "write_file")) (u "command")) with false
    by (vm_compute; reflexivity).
  replace (eq_str (PyStr (u "write_file")) (u "read_file")) with false
    by (vm_compute; reflexivity).
  replace (eq_str (PyStr (u "write_file")) (u "write_file")) with true
    by (vm_compute; reflexivity).
  reflexivity.
Qed.

(** C1 fails on the code: a read_file action whose path is the number 5
    gets past the emptiness guard, and [Path(5)], which is built before
    the [try], raises a TypeError that leaves [_execute_action]. *)
Theorem execute_action_raises_on_numeric_path (w : World) (s : State) :
  _execute_action w read_path_5 s =
  (Raise (Exn TypeError (u "expected str, bytes or os.PathLike object, not int")), s).
Proof. vm_compute. reflexivity. Qed.

(** C9, as stated, fails: a write_file action whose path is the number 0
    gets the missing-field result, although its path is present and is not
    the empty string and its content is present. *)
Lemma write_file_guard_refuses_falsy_path :
  fst (_execute_action (world_answering [] None) (PyDict write_path_zero)
         (initial_state [])) = Ok no_path_or_content /\
  ~ (dict_lookup write_path_zero (u "path") = None \/
     dict_lookup write_path_zero (u "path") = Some (PyStr []) \/
     dict_lookup write_path_zero (u "content") = None).
Proof.
  split; [vm_compute; reflexivity|].
  intros [H|[H|H]]; vm_compute in H; discriminate H.
Qed.

(** C9, amended: on a write_file action the executor answers with the
    missing-field result exactly when the path is absent or falsy (None,
    False, 0, the empty string, an empty list or dict) or the content is
    absent or null; an empty content passes the guard and is what the
    write goes on with. *)
Theorem write_file_guard_iff (w : World) (d : pydict) (s : State) :
  dict_lookup d (u "action") = Some (PyStr (u "write_file")) ->
  (fst (_execute_action w (PyDict d) s) = Ok no_path_or_content <->
   dict_lookup d (u "path") = None \/
   (exists v, dict_lookup d (u "path") = Some v /\ truthy v = false) \/
   dict_lookup d (u "content") = None \/
   dict_lookup d (u "content") = Some PyNone) /\
  (forall v,
     dict_lookup d (u "path") = Some v -> truthy v = true ->
     dict_lookup d (u "content") = Some (PyStr []) ->
     _execute_action w (PyDict d) s = write_file_proceed w v (PyStr []) s).
Proof.
  intros Hkind.
  rewrite (write_file_dispatch w d Hkind).
  unfold write_file_branch. rewrite !dict_get_lookup.
  destruct (dict_lookup d (u "path")) as [vp|] eqn:Ep.
  2:{ split; [split; auto|discriminate]. }
  destruct (truthy vp) eqn:Htruthy; cbn [negb orb].
  2:{ split; [split; eauto|].
      intros v Hv Hv'. injection Hv as <-. congruence. }
  destruct (dict_lookup d (u "content")) as [vc|] eqn:Ec.
  2:{ split; [split; auto|discriminate]. }
  destruct (is_none vc) eqn:Hnone.
  { destruct vc; try discriminate Hnone. split; [split; auto|discriminate]. }
  split.
  - split.
    + intros Hguard. exfalso.
      exact (write_file_proceed_not_guard w vp vc s Hguard).
    + intros [H|[[v [Hv Hfalsy]]|[H|H]]]; try discriminate.
      * injection Hv as <-. congruence.
      * injection H as ->. discriminate Hnone.
  - intros v Hv _ Hdata. injection Hv as <-. injection Hdata as ->. reflexivity.
Qed.

Lemma write_file_guard_witness :
  (fst (_execute_action (world_answering [] None) (PyDict write_empty)
          (initial_state [])) = Ok no_path_or_content <->
   dict_lookup write_empty (u "path") = None \/
   (exists v, dict_lookup write_empty (u "path") = Some v /\ truthy v = false) \/
   dict_lookup write_empty (u "content") = None \/
   dict_lookup write_empty (u "content") = Some PyNone) /\
  (forall v,
     dict_lookup write_empty (u "path") = Some v -> truthy v = true ->
     dict_lookup write_empty (u "content") = Some (PyStr []) ->
     _execute_action (world_answering [] None) (PyDict write_empty) (initial_state []) =
     write_file_proceed (world_answering [] None) v (PyStr []) (initial_state [])).
Proof.
  assert (Hkind : dict_lookup write_empty (u "action") = Some (PyStr (u "write_file")))
    by (vm_compute; reflexivity).
  exact (write_file_guard_iff (world_answering [] None) write_empty (initial_state [])
           Hkind).
Defined.

(** The executor leaves the agent object alone and makes no HTTP call. *)
Lemma execute_action_frame (w : World) (action_obj : pyval) (s0 s : State) :
  extends not_post s0 s ->
  wp (_execute_action w action_obj) (fun _ s' => extends not_post s0 s') s.
Proof.
  intros Hs.
  unfold _execute_action, command_branch, read_file_branch, write_file_branch,
    write_file_proceed, Path_resolve, Path, f_write.
  wp_run; repeat (apply extends_tick; [|reflexivity]); exact Hs.
Qed.

End Executor.

(** * The transport client *)

Module Transport.
Import Examples.

Lemma count_posts_tick ev s :
  count_posts (trace (tick ev s)) =
  count_posts (trace s) + (if is_post ev then 1 else 0).
Proof.
  unfold count_posts, tick, len. cbn [trace].
  rewrite filter_app, length_app. cbn [filter].
  destruct (is_post ev); cbn [List.length]; lia.
Qed.

Lemma upstream_5xx (status : Z) :
  500 <= status < 600 -> is_upstream_error status = true.
Proof.
  intros H. unfold is_upstream_error.
  replace (status >=? 500) with true by (symmetry; apply Z.geb_le; lia).
  replace (status <? 600) with true by (symmetry; apply Z.ltb_lt; lia).
  apply orb_true_r.
Qed.

(** [raise_for_status] on a 5xx response raises an HTTPError that carries
    the response. *)
Lemma raise_for_status_5xx url r s :
  500 <= status_code r < 600 ->
  raise_for_status url r s =
  (Raise (Exn (RequestException (Some (status_code r)))
            (str_of_Z (status_code r) ++ u " Server Error: " ++ reason r ++
             u " for url: " ++ url)), s).
Proof.
  intros H. unfold raise_for_status.
  replace (status_code r <? 500) with false by (symmetry; apply Z.ltb_ge; lia).
  replace (500 <=? status_code r) with true by (symmetry; apply Z.leb_le; lia).
  replace (status_code r <? 600) with true by (symmetry; apply Z.ltb_lt; lia).
  rewrite andb_false_r. reflexivity.
Qed.

(** No 4xx or 5xx status: [raise_for_status] returns. *)
Lemma raise_for_status_ok url r s :
  ~ 400 <= status_code r < 600 ->
  raise_for_status url r s = (Ok tt, s).
Proof.
  intros H. unfold raise_for_status.
  destruct (400 <=? status_code r) eqn:E4; cbn [andb].
  - apply Z.leb_le in E4.
    replace (status_code r <? 500) with false by (symmetry; apply Z.ltb_ge; lia).
    replace (status_code r <? 600) with false by (symmetry; apply Z.ltb_ge; lia).
    rewrite andb_false_r. reflexivity.
  - apply Z.leb_gt in E4.
    replace (500 <=? status_code r) with false by (symmetry; apply Z.leb_gt; lia).
    reflexivity.
Qed.

(** The retry loop against an endpoint that only answers 5xx. *)
Lemma attempts_all_5xx w url messages max_retries backoff_factor :
  0 <= backoff_factor ->
  (forall t, exists r,
      requests_post w t url messages = Ok r /\ 500 <= status_code r < 600) ->
  forall remaining attempt s,
    0 <= attempt ->
    attempt + Z.of_nat remaining = max_retries ->
    wp (attempts w url messages max_retries backoff_factor remaining attempt)
       (fun out s' =>
          (exists message explanation, out = Ok (speak_action message explanation)) /\
          ((0 < remaining)%nat ->
           exists r, 500 <= status_code r < 600 /\
             out = Ok (speak_action (server_error_text url r) (u "API调用失败"))) /\
          self s' = self s /\
          count_posts (trace s') = count_posts (trace s) + Z.of_nat remaining) s.
Proof.
  intros Hbackoff Hworld.
  induction remaining as [|remaining IH]; intros attempt s Hattempt Hsum;
    cbn [attempts].
  - apply wp_ret. split; [eauto | split; [lia | split; [reflexivity | lia]]].
  - destruct (Hworld (clock s)) as [r [Hpost H5xx]].
    apply wp_bind, wp_try. unfold attempt_try.
    apply wp_bind, wp_call_at. rewrite Hpost. cbv beta iota.
    rewrite (upstream_5xx _ H5xx).
    destruct (attempt <? max_retries - 1) eqn:Hlast.
    + (* not the last pass: sleep, then go round again *)
      apply Z.ltb_lt in Hlast.
      apply wp_bind, wp_bind. unfold time_sleep.
      replace (backoff_factor * 2 ^ attempt <? 0) with false
        by (symmetry; apply Z.ltb_ge; apply Z.mul_nonneg_nonneg;
            [lia | apply Z.pow_nonneg; lia]).
      apply wp_call_at. cbv beta iota. apply wp_ret. cbv beta iota.
      apply wp_ret. cbv beta iota.
      eapply wp_conseq.
      * apply (IH (attempt + 1)); lia.
      * cbv beta. intros out s' [Hspeak [Hlast' [Hself Hcount]]].
        rewrite !count_posts_tick in Hcount. cbn [is_post] in Hcount.
        split; [exact Hspeak | split; [| split; [exact Hself | lia]]].
        intros _. apply Hlast'. lia.
    + (* the last pass: the HTTPError is caught, the agent gives up *)
      apply Z.ltb_ge in Hlast.
      apply wp_bind, wp_bind. unfold wp at 1.
      rewrite (raise_for_status_5xx url r _ H5xx). cbn [fst snd].
      unfold attempt_except. cbn [exn_class_of exn_str].
      rewrite (upstream_5xx _ H5xx).
      replace (attempt <? max_retries - 1) with false
        by (symmetry; apply Z.ltb_ge; lia).
      cbn [andb]. apply wp_ret. cbv beta iota. apply wp_ret.
      assert (remaining = 0%nat) by lia. subst remaining.
      rewrite count_posts_tick. cbn [is_post].
      split; [eauto | split; [| split; [reflexivity | lia]]].
      intros _. exists r. split; [exact H5xx | reflexivity].
Qed.

(** The prompt that [__init__] stores renders, whatever the working
    directory. *)
Lemma init_prompt_renders (w : World) :
  exists rendered,
    str_format (u system_prompt_text)
      [ (u "working_dir", getcwd w); (u "current_date", u "2025-12-10") ] = Ok rendered.
Proof. vm_compute. eexists. reflexivity. Qed.

Lemma build_messages_init (w : World) (a : Agent) (prompt : pystr) :
  system_prompt a = u system_prompt_text ->
  exists rendered,
    build_messages w a prompt =
    Ok ([Turn (u "system") rendered] ++ session_history a ++ [Turn (u "user") prompt]).
Proof.
  intros Hprompt. unfold build_messages. rewrite Hprompt.
  destruct (init_prompt_renders w) as [rendered ->]. eauto.
Qed.

(** One call of [_call_model] sends one and the same request, and sleeps. *)
Lemma attempts_frame w url messages max_retries backoff_factor :
  forall remaining attempt s0 s,
    extends (sends url messages) s0 s ->
    wp (attempts w url messages max_retries backoff_factor remaining attempt)
       (fun _ s' => extends (sends url messages) s0 s') s.
Proof.
  induction remaining as [|remaining IH]; intros attempt s0 s Hs; cbn [attempts].
  - apply wp_ret. exact Hs.
  - unfold attempt_try, attempt_except, time_sleep, raise_for_status.
    wp_run;
      try apply IH;
      repeat (apply extends_tick; [|cbn [sends]; auto]); exact Hs.
Qed.

Lemma request_parts (system : turn) (history : list turn) (prompt : pystr) :
  request_history ([system] ++ history ++ [Turn (u "user") prompt]) = history /\
  request_prompt ([system] ++ history ++ [Turn (u "user") prompt]) = prompt.
Proof.
  unfold request_history, request_prompt. cbn [app tl]. split.
  - apply removelast_last.
  - change (system :: history ++ [Turn (u "user") prompt])
      with ((system :: history) ++ [Turn (u "user") prompt]).
    rewrite last_last. reflexivity.
Qed.

(** [_call_model] leaves the agent object alone; every request it sends
    carries the history of the object and the prompt it was given. *)
Lemma call_model_frame (w : World) (prompt : pystr) (max_retries backoff_factor : Z)
    (s : State) :
  wp (_call_model w prompt max_retries backoff_factor)
     (fun _ s' => extends (asks (session_history (self s)) prompt) s s') s.
Proof.
  unfold _call_model. apply wp_bind, wp_get_self. apply wp_bind, wp_lift.
  unfold build_messages.
  destruct (str_format _ _) as [rendered|e]; [|apply extends_refl].
  eapply wp_conseq.
  - apply attempts_frame. apply extends_refl.
  - intros out s'. cbv beta. apply extends_weaken.
    intros [url messages| | | | | | | |]; cbn [sends asks];
      try tauto.
    intros [_ ->]. apply request_parts.
Qed.

(** C6: against an endpoint that answers every attempt with a 5xx
    status, [_call_model] makes [max_retries] HTTP calls and then returns a
    speak action, whose message is the failure text of the last answer; it
    does not raise. *)
Theorem call_model_gives_up_after_max_retries (w : World) (prompt : pystr)
    (max_retries backoff_factor : Z) (s : State) :
  system_prompt (self s) = u system_prompt_text ->
  0 <= max_retries ->
  0 <= backoff_factor ->
  (forall t url messages, exists r,
      requests_post w t url messages = Ok r /\ 500 <= status_code r < 600) ->
  exists message explanation s',
    _call_model w prompt max_retries backoff_factor s =
      (Ok (speak_action message explanation), s') /\
    count_posts (trace s') = count_posts (trace s) + max_retries /\
    (0 < max_retries ->
     exists r, 500 <= status_code r < 600 /\
       message = server_error_text (endpoint (self s)) r /\
       explanation = u "API调用失败").
Proof.
  intros Hprompt Hmax Hbackoff Hworld.
  destruct (build_messages_init w (self s) prompt Hprompt) as [rendered Hmsgs].
  set (messages := [Turn (u "system") rendered] ++ session_history (self s) ++
                   [Turn (u "user") prompt]) in *.
  pose proof (attempts_all_5xx w (endpoint (self s)) messages max_retries
                backoff_factor Hbackoff (fun t => Hworld t _ _)
                (Z.to_nat max_retries) 0 s (Z.le_refl 0)) as Hloop.
  unfold wp in Hloop.
  unfold _call_model, bind, get_self, lift. rewrite Hmsgs.
  match type of Hloop with
  | _ -> (_ /\ _) =>
      destruct Hloop as [[message [explanation Hout]] [Hlast [_ Hcount]]]; [lia|]
  end.
  match goal with
  | Hout : fst ?run = _ |- _ => destruct run as [out s'] eqn:Hrun
  end.
  cbn [fst snd] in *. subst out.
  exists message, explanation, s'. split; [reflexivity | split; [lia |]].
  intros Hpos. destruct Hlast as [r [H5xx Heq]]; [lia|].
  exists r. split; [exact H5xx|].
  injection Heq as Hm He. split; [exact Hm | exact He].
Qed.

Lemma call_model_gives_up_witness :
  exists message explanation s',
    _call_model (world_status 504) (u "hi") 3 1 (initial_state []) =
      (Ok (speak_action message explanation), s') /\
    count_posts (trace s') = count_posts (trace (initial_state [])) + 3 /\
    (0 < 3 ->
     exists r, 500 <= status_code r < 600 /\
       message = server_error_text (endpoint (self (initial_state []))) r /\
       explanation = u "API调用失败").
Proof.
  assert (Hworld : forall t url messages, exists r,
             requests_post (world_status 504) t url messages = Ok r /\
             500 <= status_code r < 600).
  { intros t url messages. eexists. split; [reflexivity|]. cbn [status_code]. lia. }
  assert (Hprompt : system_prompt (self (initial_state [])) = u system_prompt_text)
    by reflexivity.
  assert (Hmax : 0 <= 3) by lia.
  assert (Hbackoff : 0 <= 1) by lia.
  exact (call_model_gives_up_after_max_retries (world_status 504) (u "hi") 3 1
           (initial_state []) Hprompt Hmax Hbackoff Hworld).
Defined.

Lemma not_upstream (status : Z) :
  ~ 400 <= status < 600 -> is_upstream_error status = false.
Proof.
  intros H. unfold is_upstream_error.
  destruct (status =? 504) eqn:E; [apply Z.eqb_eq in E; lia|].
  destruct (status >=? 500) eqn:E5; [|reflexivity].
  rewrite Z.geb_leb in E5. apply Z.leb_le in E5.
  replace (status <? 600) with false by (symmetry; apply Z.ltb_ge; lia).
  reflexivity.
Qed.

Lemma len_cons_positive {A} (x : A) (l : list A) : (len (x :: l) >? 0) = true.
Proof.
  unfold len. cbn [List.length]. rewrite Z.gtb_ltb. apply Z.ltb_lt. lia.
Qed.

(** One pass of the retry loop over a successful completion. *)
Lemma attempt_try_completion w url messages max_retries backoff_factor attempt
    s r data content :
  requests_post w (clock s) url messages = Ok r ->
  ~ 400 <= status_code r < 600 ->
  json_body r = Ok data ->
  carries_content data content ->
  (forall e response, json_loads w (strip content) = Raise e ->
                      exn_class_of e <> RequestException response) ->
  try_except (attempt_try w url messages max_retries backoff_factor attempt)
    (attempt_except max_retries backoff_factor attempt) s =
  (Ok (Return (completion_outcome w content)), tick (EvPost url messages) s).
Proof.
  intros Hpost Hstatus Hjson (d & choice & rest & message & -> & Hc & Hm & Hcontent)
    Hloads.
  unfold attempt_try, try_except, bind, call, lift, ret, raise. rewrite Hpost.
  rewrite (not_upstream _ Hstatus), (raise_for_status_ok url r _ Hstatus), Hjson.
  cbn [py_contains getitem_str py_len getitem_0 py_strip py_str].
  rewrite Hc. cbn [py_len getitem_0]. rewrite len_cons_positive.
  cbn [getitem_str]. rewrite Hm. cbn [getitem_str]. rewrite Hcontent.
  cbn [py_strip py_str]. unfold completion_outcome.
  destruct (json_loads w (strip content)) as [action_json|e] eqn:Hparse;
    [reflexivity|].
  unfold attempt_except.
  destruct (exn_class_of e) as [| | | | | | | | | | | |response] eqn:Hclass;
    cbv beta iota; rewrite ?Hclass; try reflexivity.
  exfalso. exact (Hloads e response eq_refl Hclass).
Qed.

(** C5, as stated, fails: the completion text [42] is valid JSON and no
    Action; [_call_model] hands the number 42 back, which is neither a
    dict nor a speak action. *)
Lemma call_model_returns_non_action :
  fst (_call_model world_42 (u "hi") 3 1 (initial_state [])) = Ok (PyInt 42) /\
  isinstance_dict (PyInt 42) = false.
Proof. split; vm_compute; reflexivity. Qed.

(** C5, amended: for a successful completion, [_call_model] returns
    without raising: the speak action that carries the raw text and the
    parse-failure explanation when the text is not JSON
    ([json.loads] raises JSONDecodeError); the parsed value, Action or
    not, when it is JSON; the speak action for an unexpected error when
    [json.loads] fails in another way (a ValueError for a number of more
    than 4300 digits, a RecursionError).  The last hypothesis says that
    [json.loads], a function of the standard library, raises nothing of
    the requests library. *)
Theorem call_model_parse_outcome (w : World) (prompt : pystr)
    (max_retries backoff_factor : Z) (s : State) (r : Response) (data : pyval)
    (content : pystr) :
  system_prompt (self s) = u system_prompt_text ->
  0 < max_retries ->
  (forall url messages, requests_post w (clock s) url messages = Ok r) ->
  ~ 400 <= status_code r < 600 ->
  json_body r = Ok data ->
  carries_content data content ->
  (forall e response, json_loads w (strip content) = Raise e ->
                      exn_class_of e <> RequestException response) ->
  exists s',
    _call_model w prompt max_retries backoff_factor s =
    (Ok (match json_loads w (strip content) with
         | Ok action_json => action_json
         | Raise e =>
             match exn_class_of e with
             | JSONDecodeError =>
                 speak_action (u "模型返回了非预期格式: " ++ content) (u "解析模型输出失败")
             | _ =>
                 speak_action
                   (u "An unexpected error occurred during API call: " ++ exn_str e)
                   (u "发生未知错误")
             end
         end), s').
Proof.
  intros Hprompt Hmax Hpost Hstatus Hjson Hcontent Hloads.
  destruct (build_messages_init w (self s) prompt Hprompt) as [rendered Hmsgs].
  unfold _call_model, bind, get_self, lift. rewrite Hmsgs.
  destruct (Z.to_nat max_retries) as [|remaining] eqn:Hn; [lia|].
  cbn [attempts]. unfold bind.
  rewrite (attempt_try_completion w _ _ max_retries backoff_factor 0 s r data content
             (Hpost _ _) Hstatus Hjson Hcontent Hloads).
  eexists. reflexivity.
Qed.

Lemma call_model_parse_outcome_witness :
  exists s',
    _call_model world_prose (u "hi") 3 1 (initial_state []) =
    (Ok (match json_loads world_prose (strip (u "I cannot do that")) with
         | Ok action_json => action_json
         | Raise e =>
             match exn_class_of e with
             | JSONDecodeError =>
                 speak_action (u "模型返回了非预期格式: " ++ u "I cannot do that")
                   (u "解析模型输出失败")
             | _ =>
                 speak_action
                   (u "An unexpected error occurred during API call: " ++ exn_str e)
                   (u "发生未知错误")
             end
         end), s').
Proof.
  assert (Hprompt : system_prompt (self (initial_state [])) = u system_prompt_text)
    by reflexivity.
  assert (Hmax : 0 < 3) by lia.
  assert (Hpost : forall url messages,
             requests_post world_prose (clock (initial_state [])) url messages =
             Ok ok_prose) by reflexivity.
  assert (Hstatus : ~ 400 <= status_code ok_prose < 600) by (cbn [status_code ok_prose]; lia).
  assert (Hjson : json_body ok_prose = Ok (completion (u "I cannot do that")))
    by reflexivity.
  assert (Hcontent : carries_content (completion (u "I cannot do that"))
                       (u "I cannot do that")).
  { unfold carries_content, completion. do 4 eexists.
    split; [reflexivity|]. split; [vm_compute; reflexivity|].
    split; vm_compute; reflexivity. }
  assert (Hloads : forall e response,
             json_loads world_prose (strip (u "I cannot do that")) = Raise e ->
             exn_class_of e <> RequestException response).
  { intros e response He. vm_compute in He. injection He as <-. discriminate. }
  exact (call_model_parse_outcome world_prose (u "hi") 3 1 (initial_state []) ok_prose
           (completion (u "I cannot do that")) (u "I cannot do that")
           Hprompt Hmax Hpost Hstatus Hjson Hcontent Hloads).
Defined.

(** The same on a completion that is JSON to the eye and yet refused by
    the parser: an integer of 5000 digits is beyond the digit limit, the
    parser raises a plain ValueError, and the outer handler answers. *)
Lemma call_model_digit_limit :
  fst (_call_model world_digits (u "hi") 3 1 (initial_state [])) =
  Ok (speak_action
        (u "An unexpected error occurred during API call: " ++ exn_str digit_limit)
        (u "发生未知错误")).
Proof. vm_compute. reflexivity. Qed.

End Transport.

(** * The turn loop *)

Module Orchestrator.
Import Examples.

(** The executor on a speak action: it echoes the message and calls
    nothing. *)
Lemma execute_speak (w : World) (d : pydict) (s : State) :
  dict_lookup d (u "action") = Some (PyStr (u "speak")) ->
  _execute_action w (PyDict d) s =
  (Ok (result_dict (u "Agent spoke: " ++
                    py_str (dict_get_default d (u "message") (PyStr [])))), s).
Proof.
  intros Hkind. unfold _execute_action.
  rewrite (Executor.dict_get_lookup d (u "action")), Hkind.
  replace (eq_str (PyStr (u "speak")) (u "command")) with false
    by (vm_compute; reflexivity).
  replace (eq_str (PyStr (u "speak")) (u "read_file")) with false
    by (vm_compute; reflexivity).
  replace (eq_str (PyStr (u "speak")) (u "write_file")) with false
    by (vm_compute; reflexivity).
  replace (eq_str (PyStr (u "speak")) (u "speak")) with true
    by (vm_compute; reflexivity).
  reflexivity.
Qed.

(** One pass of the inner loop in which the model decides to speak. *)
Lemma inner_loop_speak (w : World) (user_input : pystr) (fuel : nat)
    (step_count : Z) (final_response : pyval) (s s1 : State) (d : pydict) :
  step_count < max_steps_per_input ->
  _call_model w (if step_count + 1 =? 1 then user_input else []) 3 1 s =
    (Ok (PyDict d), s1) ->
  dict_lookup d (u "action") = Some (PyStr (u "speak")) ->
  inner_loop w user_input (S fuel) step_count final_response s =
  (Ok (dict_get_default d (u "message") (PyStr [])),
   with_self
     (record (result_turn
                (PyStr (u "Agent spoke: " ++
                        py_str (dict_get_default d (u "message") (PyStr []))))))
     (with_self (record (assistant_turn (PyDict d))) s1)).
Proof.
  intros Hstep Hcall Hkind. cbn [inner_loop].
  replace (step_count <? max_steps_per_input) with true
    by (symmetry; apply Z.ltb_lt; exact Hstep).
  unfold bind at 1. rewrite Hcall.
  unfold bind at 1. rewrite (execute_speak w d s1 Hkind).
  unfold bind, append_turn, modify_self, lift, ret, result_dict.
  cbn [getitem_str dict_lookup]. rewrite pystr_eqb_refl.
  rewrite (Executor.dict_get_lookup d (u "action")), Hkind.
  replace (eq_str (PyStr (u "speak")) (u "speak")) with true
    by (vm_compute; reflexivity).
  reflexivity.
Qed.

(** C8: when the model decides to speak, at whatever step of the inner
    loop, the loop ends there with the action's message (the empty string
    if there is none) as final response, and nothing is asked of the world
    after that decision: no further model call, no command, no file. *)
Theorem speak_ends_inner_loop (w : World) (user_input : pystr) (fuel : nat)
    (step_count : Z) (final_response : pyval) (s s1 : State) (d : pydict) :
  step_count < max_steps_per_input ->
  _call_model w (if step_count + 1 =? 1 then user_input else []) 3 1 s =
    (Ok (PyDict d), s1) ->
  dict_lookup d (u "action") = Some (PyStr (u "speak")) ->
  exists s',
    inner_loop w user_input (S fuel) step_count final_response s =
      (Ok (dict_get_default d (u "message") (PyStr [])), s') /\
    clock s' = clock s1 /\ trace s' = trace s1.
Proof.
  intros Hstep Hcall Hkind.
  rewrite (inner_loop_speak w user_input fuel step_count final_response s s1 d
             Hstep Hcall Hkind).
  eexists. split; [reflexivity|]. split; reflexivity.
Qed.

Lemma speak_ends_inner_loop_witness :
  exists s',
    inner_loop world_hello (u "hi") 10 0 (PyStr []) state_hi =
      (Ok (dict_get_default hello_fields (u "message") (PyStr [])), s') /\
    clock s' = clock after_hello /\ trace s' = trace after_hello.
Proof.
  assert (Hstep : 0 < max_steps_per_input) by reflexivity.
  assert (Hcall : _call_model world_hello (if 0 + 1 =? 1 then u "hi" else []) 3 1
                    state_hi = (Ok (PyDict hello_fields), after_hello))
    by (vm_compute; reflexivity).
  assert (Hkind : dict_lookup hello_fields (u "action") = Some (PyStr (u "speak")))
    by (vm_compute; reflexivity).
  exact (speak_ends_inner_loop world_hello (u "hi") 9 0 (PyStr []) state_hi
           after_hello hello_fields Hstep Hcall Hkind).
Defined.

(** C7, as stated, fails: the cycle in which the model speaks is
    recorded like any other; the history grows by the assistant turn and
    the result turn. *)
Lemma speak_cycle_is_recorded :
  fst (_call_model world_hello (u "hi") 3 1 state_hi) = Ok hello_speak /\
  session_history (self (snd (inner_loop world_hello (u "hi") 10 0 (PyStr []) state_hi))) =
    session_history (self state_hi) ++
    [ assistant_turn hello_speak; result_turn (PyStr (u "Agent spoke: hello")) ] /\
  session_history (self (snd (inner_loop world_hello (u "hi") 10 0 (PyStr []) state_hi))) <>
    session_history (self state_hi).
Proof.
  split; [vm_compute; reflexivity|]. split; [vm_compute; reflexivity|].
  vm_compute. intros H. discriminate H.
Qed.

(** C7, amended: when the model decides to speak, the assistant turn
    that holds the serialized action is appended to the history, after the
    turns that were there, none of which is dropped. *)
Theorem speak_cycle_records_assistant_turn (w : World) (user_input : pystr)
    (fuel : nat) (step_count : Z) (final_response : pyval) (s s1 : State)
    (d : pydict) :
  step_count < max_steps_per_input ->
  _call_model w (if step_count + 1 =? 1 then user_input else []) 3 1 s =
    (Ok (PyDict d), s1) ->
  dict_lookup d (u "action") = Some (PyStr (u "speak")) ->
  exists tail,
    session_history
      (self (snd (inner_loop w user_input (S fuel) step_count final_response s))) =
    session_history (self s) ++ assistant_turn (PyDict d) :: tail.
Proof.
  intros Hstep Hcall Hkind.
  rewrite (inner_loop_speak w user_input fuel step_count final_response s s1 d
             Hstep Hcall Hkind).
  pose proof (Transport.call_model_frame w
                (if step_count + 1 =? 1 then user_input else []) 3 1 s) as Hframe.
  unfold wp in Hframe. rewrite Hcall in Hframe. destruct Hframe as [Hself _].
  cbn [snd] in Hself.
  cbn [snd with_self self record set_history session_history].
  rewrite Hself, <- app_assoc. eexists. reflexivity.
Qed.

Lemma speak_cycle_records_witness :
  exists tail,
    session_history
      (self (snd (inner_loop world_hello (u "hi") 10 0 (PyStr []) state_hi))) =
    session_history (self state_hi) ++ assistant_turn (PyDict hello_fields) :: tail.
Proof.
  assert (Hstep : 0 < max_steps_per_input) by reflexivity.
  assert (Hcall : _call_model world_hello (if 0 + 1 =? 1 then u "hi" else []) 3 1
                    state_hi = (Ok (PyDict hello_fields), after_hello))
    by (vm_compute; reflexivity).
  assert (Hkind : dict_lookup hello_fields (u "action") = Some (PyStr (u "speak")))
    by (vm_compute; reflexivity).
  exact (speak_cycle_records_assistant_turn world_hello (u "hi") 9 0 (PyStr [])
           state_hi after_hello hello_fields Hstep Hcall Hkind).
Defined.

(** ** What the loop maintains *)

Lemma invariant_extends (a0 : Agent) (P : event -> Prop) (s s' : State) :
  (forall ev, P ev -> continuation_fits a0 ev) ->
  run_invariant a0 s -> extends P s s' -> run_invariant a0 s'.
Proof.
  intros HP [Hconfig Htrace] [Hself [evs [Hgrow Hevs]]]. split.
  - rewrite Hself. exact Hconfig.
  - rewrite Hgrow. apply Forall_app. split; [exact Htrace|].
    eapply Forall_impl; eauto.
Qed.

Lemma invariant_with_self (a0 : Agent) (f : Agent -> Agent) (s : State) :
  (forall a, same_config a0 a -> same_config a0 (f a)) ->
  run_invariant a0 s -> run_invariant a0 (with_self f s).
Proof.
  intros Hf [Hconfig Htrace]. split; [apply Hf, Hconfig | exact Htrace].
Qed.

Lemma record_config (a0 : Agent) (t : turn) (a : Agent) :
  same_config a0 a -> same_config a0 (record t a).
Proof. exact (fun H => H). Qed.

Lemma truncate_config (a0 a : Agent) :
  same_config a0 a -> same_config a0 (_truncate_history a).
Proof. exact (fun H => H). Qed.

(** A model call keeps the invariant, provided that the history fits
    whenever the prompt is empty. *)
Lemma call_model_invariant (w : World) (a0 : Agent) (prompt : pystr)
    (max_retries backoff_factor : Z) (s : State) :
  run_invariant a0 s ->
  (prompt = [] -> context_chars (self s) <= max_context_length (self s)) ->
  wp (_call_model w prompt max_retries backoff_factor)
     (fun _ s' => run_invariant a0 s' /\ self s' = self s) s.
Proof.
  intros Hinv Hfits. eapply wp_conseq.
  - apply Transport.call_model_frame.
  - cbv beta. intros _ s' Hext. split; [|exact (proj1 Hext)].
    refine (invariant_extends a0 _ s s' _ Hinv Hext).
    intros [url messages| | | | | | | |]; cbn [asks continuation_fits]; try tauto.
    intros [Hhistory Hprompt] Hempty.
    destruct Hinv as [[Hsp Hmax] _].
    rewrite Hhistory, <- Hsp, <- Hmax. apply Hfits. congruence.
Qed.

Lemma execute_action_invariant (w : World) (a0 : Agent) (action_obj : pyval)
    (s : State) :
  run_invariant a0 s ->
  wp (_execute_action w action_obj)
     (fun _ s' => run_invariant a0 s' /\ self s' = self s) s.
Proof.
  intros Hinv. eapply wp_conseq.
  - apply Executor.execute_action_frame. apply extends_refl.
  - cbv beta. intros _ s' Hext. split; [|exact (proj1 Hext)].
    refine (invariant_extends a0 _ s s' _ Hinv Hext).
    intros [url messages| | | | | | | |]; cbn [continuation_fits]; try tauto.
    discriminate.
Qed.

(** The inner loop keeps the invariant: on its first pass the prompt is
    the user's input, which is not empty; on every later pass the history
    has just been truncated. *)
Lemma inner_loop_invariant (w : World) (a0 : Agent) (user_input : pystr) :
  user_input <> [] ->
  len (system_prompt a0) <= max_context_length a0 ->
  forall fuel step_count final_response s,
    run_invariant a0 s ->
    ((step_count + 1 =? 1) = false ->
     context_chars (self s) <= max_context_length (self s)) ->
    wp (inner_loop w user_input fuel step_count final_response)
       (fun _ s' => run_invariant a0 s') s.
Proof.
  intros Hinput Hprompt.
  induction fuel as [|fuel IH]; intros step_count final_response s Hinv Hfits;
    cbn [inner_loop].
  { apply wp_ret. exact Hinv. }
  destruct (step_count <? max_steps_per_input); [|apply wp_ret; exact Hinv].
  apply wp_bind. eapply wp_conseq.
  { apply (call_model_invariant w a0 _ 3 1 s Hinv).
    destruct (step_count + 1 =? 1); [contradiction | auto]. }
  cbv beta. intros out s1 [Hinv1 _].
  destruct out as [action_to_take|e]; [|exact Hinv1].
  destruct action_to_take as [| | | | |d]; try (apply wp_ret; exact Hinv1).
  apply wp_bind. eapply wp_conseq.
  { apply (execute_action_invariant w a0 (PyDict d) s1 Hinv1). }
  cbv beta. intros out s2 [Hinv2 _].
  destruct out as [execution_result|e]; [|exact Hinv2].
  apply wp_bind, wp_modify_self. cbv beta iota.
  pose proof (invariant_with_self a0 _ s2
                (record_config a0 (assistant_turn (PyDict d))) Hinv2) as Hinv3.
  apply wp_bind, wp_lift.
  destruct (getitem_str execution_result (u "result")) as [text|e]; [|exact Hinv3].
  apply wp_bind, wp_modify_self. cbv beta iota.
  pose proof (invariant_with_self a0 _ _ (record_config a0 (result_turn text)) Hinv3)
    as Hinv4.
  destruct (eq_str (dict_get d (u "action")) (u "speak")).
  { apply wp_ret. exact Hinv4. }
  apply wp_bind, wp_modify_self. cbv beta iota.
  apply IH.
  - exact (invariant_with_self a0 _ _ (truncate_config a0) Hinv4).
  - intros _. cbn [with_self self].
    destruct Hinv4 as [[Hsp Hmax] _]. cbn [with_self self] in Hsp, Hmax.
    match goal with
    | |- context_chars (_truncate_history ?a) <= _ =>
        change (context_chars (_truncate_history a) <= max_context_length a)
    end.
    apply Truncation.truncate_fits. rewrite Hsp, Hmax. exact Hprompt.
Qed.

Lemma run_loop_invariant (w : World) (a0 : Agent) :
  len (system_prompt a0) <= max_context_length a0 ->
  forall stdin s,
    run_invariant a0 s ->
    wp (run_loop w stdin) (fun _ s' => run_invariant a0 s') s.
Proof.
  intros Hprompt.
  induction stdin as [|[text|] rest IH]; intros s Hinv; cbn [run_loop];
    try (apply wp_ret; exact Hinv).
  cbv zeta. destruct (strip text) as [|c user_input] eqn:Hstrip; [apply IH, Hinv|].
  destruct (existsb _ _); [apply wp_ret; exact Hinv|].
  apply wp_bind, wp_try, wp_bind, wp_modify_self. cbv beta iota.
  apply wp_bind. eapply wp_conseq.
  { apply (inner_loop_invariant w a0 (c :: user_input)).
    - discriminate.
    - exact Hprompt.
    - exact (invariant_with_self a0 _ s
               (record_config a0 (Turn (u "user") (c :: user_input))) Hinv).
    - discriminate. }
  cbv beta. intros out s' Hinv'.
  destruct out as [final_response|e]; apply wp_ret; cbv beta iota.
  - apply IH, Hinv'.
  - apply wp_ret. exact Hinv'.
Qed.

(** C4, as stated, fails: the first request of an input is sent before
    any truncation; a first line of 30000 letters makes a request whose
    history alone is larger than the budget of 30000. *)
Lemma first_request_exceeds_budget :
  request_sizes (trace (snd (run world_prose long_line (initial_state [])))) = [30717] /\
  forallb (request_fits (max_context_length (__init__ [])))
    (trace (snd (run world_prose long_line (initial_state [])))) = false.
Proof. split; vm_compute; reflexivity. Qed.

(** C4, amended: in every run of the agent that [__init__] makes, each
    request that continues an input (those sent with an empty prompt, on
    the second and later steps) carries a history that, with the stored
    system prompt, fits the budget as [_truncate_history] counts it. *)
Theorem continuation_requests_fit (w : World) (stdin : list input_event)
    (key : pystr) :
  Forall (continuation_fits (__init__ key))
    (trace (snd (run w stdin (initial_state key)))).
Proof.
  assert (Hprompt : len (system_prompt (__init__ key))
                    <= max_context_length (__init__ key))
    by (vm_compute; discriminate).
  assert (Hinit : run_invariant (__init__ key) (initial_state key)).
  { split; [split; reflexivity | constructor]. }
  exact (proj2 (run_loop_invariant w (__init__ key) Hprompt stdin (initial_state key)
                  Hinit)).
Qed.

End Orchestrator.

(** * More about truncation *)

Module TruncationFacts.
Import Examples MoreExamples.

Lemma item_chars_nonneg (item : turn) : 0 <= item_chars item.
Proof. unfold item_chars, len. lia. Qed.

Lemma history_chars_nonneg (h : list turn) : 0 <= history_chars h.
Proof.
  induction h as [|item h IH]; cbn [history_chars]; [lia|].
  pose proof (item_chars_nonneg item). lia.
Qed.

Lemma accepted_all max_len items :
  forall total,
    total + history_chars items <= max_len ->
    accepted max_len items total = items.
Proof.
  induction items as [|item rest IH]; intros total Hfit; cbn [accepted].
  - reflexivity.
  - cbn [history_chars] in Hfit.
    pose proof (history_chars_nonneg rest).
    replace (total + item_chars item >? max_len) with false
      by (symmetry; rewrite Z.gtb_ltb; apply Z.ltb_ge; lia).
    rewrite IH by lia. reflexivity.
Qed.

Lemma accepted_stops max_len items :
  forall total,
    accepted max_len items total = items \/
    exists d rest,
      items = accepted max_len items total ++ d :: rest /\
      max_len < total + history_chars (accepted max_len items total) + item_chars d.
Proof.
  induction items as [|item tl IH]; intros total; cbn [accepted].
  - left. reflexivity.
  - destruct (total + item_chars item >? max_len) eqn:Hgt.
    + right. exists item, tl. split; [reflexivity|].
      rewrite Z.gtb_ltb in Hgt. apply Z.ltb_lt in Hgt. cbn [history_chars]. lia.
    + destruct (IH (total + item_chars item)) as [Hall | [d [rest [Hsplit Hover]]]].
      * left. rewrite Hall. reflexivity.
      * right. exists d, rest. split.
        -- cbn [app]. f_equal. exact Hsplit.
        -- cbn [history_chars]. lia.
Qed.

(** X1: a history that fits the budget together with the prompt is left as
    it is. *)
Theorem truncate_keeps_fitting_history (self : Agent) :
  context_chars self <= max_context_length self ->
  session_history (_truncate_history self) = session_history self.
Proof.
  intros Hfit. rewrite Truncation.truncated_history_eq.
  rewrite accepted_all.
  - apply rev_involutive.
  - rewrite Truncation.history_chars_rev. exact Hfit.
Qed.

Lemma truncate_keeps_fitting_witness :
  session_history (_truncate_history chatty) = session_history chatty.
Proof.
  assert (Hfit : context_chars chatty <= max_context_length chatty)
    by (vm_compute; discriminate).
  exact (truncate_keeps_fitting_history chatty Hfit).
Defined.

(** X2: truncation drops no more than it has to: either the whole history
    is kept, or the newest dropped turn would have pushed the kept turns
    and the prompt over the budget. *)
Theorem truncate_drops_only_on_overflow (self : Agent) :
  session_history (_truncate_history self) = session_history self \/
  exists older d,
    session_history self = older ++ d :: session_history (_truncate_history self) /\
    max_context_length self <
    len (system_prompt self) +
    history_chars (session_history (_truncate_history self)) + item_chars d.
Proof.
  rewrite Truncation.truncated_history_eq.
  destruct (accepted_stops (max_context_length self) (rev (session_history self))
              (len (system_prompt self))) as [Hall | [d [rest [Hsplit Hover]]]].
  - left. rewrite Hall. apply rev_involutive.
  - right. exists (rev rest), d. split.
    + rewrite <- (rev_involutive (session_history self)), Hsplit at 1.
      rewrite rev_app_distr. cbn [rev]. rewrite <- app_assoc. reflexivity.
    + rewrite Truncation.history_chars_rev. exact Hover.
Qed.

(** X3: when the system prompt alone is larger than the budget, truncation
    empties the history. *)
Theorem truncate_empties_under_oversized_prompt (self : Agent) :
  max_context_length self < len (system_prompt self) ->
  session_history (_truncate_history self) = [].
Proof.
  intros Hbig. rewrite Truncation.truncated_history_eq.
  destruct (rev (session_history self)) as [|item rest]; [reflexivity|].
  cbn [accepted]. pose proof (item_chars_nonneg item).
  replace (len (system_prompt self) + item_chars item >? max_context_length self)
    with true by (symmetry; rewrite Z.gtb_ltb; apply Z.ltb_lt; lia).
  reflexivity.
Qed.

Lemma truncate_empties_witness :
  session_history (_truncate_history tiny_budget) = [].
Proof.
  assert (Hbig : max_context_length tiny_budget < len (system_prompt tiny_budget))
    by (vm_compute; reflexivity).
  exact (truncate_empties_under_oversized_prompt tiny_budget Hbig).
Defined.

End TruncationFacts.

(** * More about the transport client *)

Module TransportFacts.
Import Examples TransportExamples.

Lemma sleep_nonneg (backoff_factor attempt : Z) :
  0 <= backoff_factor -> 0 <= attempt ->
  (backoff_factor * 2 ^ attempt <? 0) = false.
Proof.
  intros Hb Ha. apply Z.ltb_ge. apply Z.mul_nonneg_nonneg; [lia|].
  apply Z.pow_nonneg. lia.
Qed.

(** A sleep of a length that is not negative returns. *)
Lemma wp_sleep (seconds : Z) (Q : result unit -> State -> Prop) (s : State) :
  (seconds <? 0) = false ->
  Q (Ok tt) (tick (EvSleep seconds) s) ->
  wp (time_sleep seconds) Q s.
Proof.
  intros Hsec HQ. unfold time_sleep. rewrite Hsec. apply wp_call_at. exact HQ.
Qed.

(** With a backoff that is not negative, the retry loop always returns. *)
Lemma attempts_return w url messages max_retries backoff_factor :
  0 <= backoff_factor ->
  forall remaining attempt s,
    0 <= attempt ->
    wp (attempts w url messages max_retries backoff_factor remaining attempt)
       (fun out _ => exists v, out = Ok v) s.
Proof.
  intros Hbackoff.
  induction remaining as [|remaining IH]; intros attempt s Hattempt; cbn [attempts].
  - apply wp_ret. eauto.
  - apply wp_bind, wp_try.
    apply (wp_conseq _ (fun _ _ => True)); [exact I|].
    intros [exit|e] s' _.
    + destruct exit as [|v]; [apply IH; lia | apply wp_ret; eauto].
    + unfold attempt_except.
      wp_run; eauto.
      apply wp_sleep; [apply sleep_nonneg; assumption|].
      wp_run. apply IH. lia.
Qed.

(** X4: with the prompt that [__init__] stores and a backoff factor that
    is not negative, [_call_model] returns a value whatever the endpoint
    does; no exception reaches the caller. *)
Theorem call_model_never_raises (w : World) (prompt : pystr)
    (max_retries backoff_factor : Z) (s : State) :
  system_prompt (self s) = u system_prompt_text ->
  0 <= backoff_factor ->
  exists v s', _call_model w prompt max_retries backoff_factor s = (Ok v, s').
Proof.
  intros Hprompt Hbackoff.
  destruct (Transport.build_messages_init w (self s) prompt Hprompt) as [rendered Hmsgs].
  unfold _call_model, bind, get_self, lift. rewrite Hmsgs.
  pose proof (attempts_return w (endpoint (self s))
                ([Turn (u "system") rendered] ++ session_history (self s) ++
                 [Turn (u "user") prompt])
                max_retries backoff_factor Hbackoff (Z.to_nat max_retries) 0 s
                (Z.le_refl 0)) as Hret.
  unfold wp in Hret. destruct Hret as [v Hv].
  match type of Hv with
  | fst ?run = _ => destruct run as [out s'] eqn:Hrun
  end.
  cbn [fst] in Hv. subst out. eauto.
Qed.

Lemma call_model_never_raises_witness :
  exists v s', _call_model (world_status 504) (u "hi") 3 1 (initial_state []) = (Ok v, s').
Proof.
  assert (Hprompt : system_prompt (self (initial_state [])) = u system_prompt_text)
    by reflexivity.
  assert (Hbackoff : 0 <= 1) by lia.
  exact (call_model_never_raises (world_status 504) (u "hi") 3 1 (initial_state [])
           Hprompt Hbackoff).
Defined.

(** The retry loop posts at most once per pass. *)
Lemma attempts_post_bound w url messages max_retries backoff_factor :
  forall remaining attempt s bound,
    count_posts (trace s) + Z.of_nat remaining <= bound ->
    wp (attempts w url messages max_retries backoff_factor remaining attempt)
       (fun _ s' => count_posts (trace s') <= bound) s.
Proof.
  induction remaining as [|remaining IH]; intros attempt s bound Hbound;
    cbn [attempts].
  - apply wp_ret. lia.
  - unfold attempt_try, attempt_except, time_sleep, raise_for_status.
    wp_run;
      try apply IH;
      rewrite ?Transport.count_posts_tick; cbn [is_post]; lia.
Qed.

Lemma call_model_post_bound (w : World) (prompt : pystr)
    (max_retries backoff_factor : Z) (s : State) (bound : Z) :
  0 <= max_retries ->
  count_posts (trace s) + max_retries <= bound ->
  wp (_call_model w prompt max_retries backoff_factor)
     (fun _ s' => count_posts (trace s') <= bound) s.
Proof.
  intros Hmax Hbound.
  unfold _call_model. apply wp_bind, wp_get_self. apply wp_bind, wp_lift.
  destruct (build_messages w (self s) prompt) as [messages|e]; [|lia].
  apply attempts_post_bound. lia.
Qed.

(** X5: one call of [_call_model] makes at most [max_retries] HTTP
    requests, whatever the endpoint answers. *)
Theorem call_model_posts_at_most_max_retries (w : World) (prompt : pystr)
    (max_retries backoff_factor : Z) (s : State) :
  0 <= max_retries ->
  count_posts (trace (snd (_call_model w prompt max_retries backoff_factor s))) <=
  count_posts (trace s) + max_retries.
Proof.
  intros Hmax.
  exact (call_model_post_bound w prompt max_retries backoff_factor s
           (count_posts (trace s) + max_retries) Hmax (Z.le_refl _)).
Qed.

Lemma call_model_posts_witness :
  count_posts (trace (snd (_call_model world_hello (u "hi") 3 1 (initial_state [])))) <=
  count_posts (trace (initial_state [])) + 3.
Proof.
  assert (Hmax : 0 <= 3) by lia.
  exact (call_model_posts_at_most_max_retries world_hello (u "hi") 3 1
           (initial_state []) Hmax).
Defined.

(** X6: [_call_model] does not touch the agent object, and all it asks of
    the world is to post requests that carry the history of the object
    and the prompt it was given, and to sleep. *)
Theorem call_model_only_posts_and_sleeps (w : World) (prompt : pystr)
    (max_retries backoff_factor : Z) (s : State) :
  self (snd (_call_model w prompt max_retries backoff_factor s)) = self s /\
  exists evs,
    trace (snd (_call_model w prompt max_retries backoff_factor s)) = trace s ++ evs /\
    Forall (asks (session_history (self s)) prompt) evs.
Proof.
  exact (Transport.call_model_frame w prompt max_retries backoff_factor s).
Qed.

(** ** Failures that are not retried *)

Lemma not_upstream_4xx (status : Z) :
  400 <= status < 500 -> is_upstream_error status = false.
Proof.
  intros H. unfold is_upstream_error.
  replace (status =? 504) with false by (symmetry; apply Z.eqb_neq; lia).
  replace (status >=? 500) with false
    by (symmetry; rewrite Z.geb_leb; apply Z.leb_gt; lia).
  reflexivity.
Qed.

Lemma raise_for_status_4xx url r s :
  400 <= status_code r < 500 ->
  raise_for_status url r s =
  (Raise (Exn (RequestException (Some (status_code r)))
            (str_of_Z (status_code r) ++ u " Client Error: " ++ reason r ++
             u " for url: " ++ url)), s).
Proof.
  intros H. unfold raise_for_status.
  replace (400 <=? status_code r) with true by (symmetry; apply Z.leb_le; lia).
  replace (status_code r <? 500) with true by (symmetry; apply Z.ltb_lt; lia).
  reflexivity.
Qed.

(** The first pass of the loop decides, when it returns. *)
Lemma attempts_first_pass w url messages max_retries backoff_factor remaining
    attempt s v s' :
  try_except (attempt_try w url messages max_retries backoff_factor attempt)
    (attempt_except max_retries backoff_factor attempt) s = (Ok (Return v), s') ->
  attempts w url messages max_retries backoff_factor (S remaining) attempt s =
  (Ok v, s').
Proof.
  intros Hpass. cbn [attempts]. unfold bind at 1. rewrite Hpass. reflexivity.
Qed.

(** [_call_model], once its request is built, is the retry loop. *)
Lemma call_model_unfold (w : World) (prompt : pystr) (max_retries backoff_factor : Z)
    (s : State) :
  system_prompt (self s) = u system_prompt_text ->
  exists rendered,
    _call_model w prompt max_retries backoff_factor s =
    attempts w (endpoint (self s))
      ([Turn (u "system") rendered] ++ session_history (self s) ++
       [Turn (u "user") prompt])
      max_retries backoff_factor (Z.to_nat max_retries) 0 s.
Proof.
  intros Hprompt.
  destruct (Transport.build_messages_init w (self s) prompt Hprompt) as [rendered Hmsgs].
  exists rendered. unfold _call_model, bind, get_self, lift. rewrite Hmsgs.
  reflexivity.
Qed.

(** X7: a 4xx answer is not retried: [_call_model] posts once, does not
    sleep, and returns the speak action that carries the client error. *)
Theorem call_model_does_not_retry_4xx (w : World) (prompt : pystr)
    (max_retries backoff_factor : Z) (s : State) (r : Response) :
  system_prompt (self s) = u system_prompt_text ->
  0 < max_retries ->
  (forall url messages, requests_post w (clock s) url messages = Ok r) ->
  400 <= status_code r < 500 ->
  exists rendered,
    _call_model w prompt max_retries backoff_factor s =
    (Ok (speak_action (client_error_text (endpoint (self s)) r) (u "API调用失败")),
     tick (request_of (self s) rendered prompt) s).
Proof.
  intros Hprompt Hmax Hpost H4xx.
  destruct (call_model_unfold w prompt max_retries backoff_factor s Hprompt)
    as [rendered ->].
  exists rendered.
  destruct (Z.to_nat max_retries) as [|remaining] eqn:Hn; [lia|].
  apply attempts_first_pass.
  unfold try_except, attempt_try, bind, call, ret. rewrite Hpost.
  rewrite (not_upstream_4xx _ H4xx), (raise_for_status_4xx _ r _ H4xx).
  unfold attempt_except. cbn [exn_class_of exn_str].
  rewrite (not_upstream_4xx _ H4xx). reflexivity.
Qed.

Lemma call_model_does_not_retry_4xx_witness :
  exists rendered,
    _call_model world_401 (u "hi") 3 1 (initial_state []) =
    (Ok (speak_action (client_error_text (endpoint (self (initial_state [])))
                         unauthorized) (u "API调用失败")),
     tick (request_of (self (initial_state [])) rendered (u "hi")) (initial_state [])).
Proof.
  assert (Hprompt : system_prompt (self (initial_state [])) = u system_prompt_text)
    by reflexivity.
  assert (Hmax : 0 < 3) by lia.
  assert (Hpost : forall url messages,
             requests_post world_401 (clock (initial_state [])) url messages =
             Ok unauthorized) by reflexivity.
  assert (H4xx : 400 <= status_code unauthorized < 500)
    by (cbn [status_code unauthorized]; lia).
  exact (call_model_does_not_retry_4xx world_401 (u "hi") 3 1 (initial_state [])
           unauthorized Hprompt Hmax Hpost H4xx).
Defined.

(** X8: when [requests.post] itself raises and the exception carries no
    5xx response, [_call_model] posts once and returns a speak action
    that carries the text of the exception: as an API failure for a
    RequestException, as an unexpected error for any other class. *)
Theorem call_model_reports_post_exception (w : World) (prompt : pystr)
    (max_retries backoff_factor : Z) (s : State) (e : exn) :
  system_prompt (self s) = u system_prompt_text ->
  0 < max_retries ->
  (forall url messages, requests_post w (clock s) url messages = Raise e) ->
  (forall status, exn_class_of e = RequestException (Some status) ->
                  is_upstream_error status = false) ->
  exists rendered,
    _call_model w prompt max_retries backoff_factor s =
    (Ok (failure_action e), tick (request_of (self s) rendered prompt) s).
Proof.
  intros Hprompt Hmax Hpost Hclass.
  destruct (call_model_unfold w prompt max_retries backoff_factor s Hprompt)
    as [rendered ->].
  exists rendered.
  destruct (Z.to_nat max_retries) as [|remaining] eqn:Hn; [lia|].
  apply attempts_first_pass.
  unfold try_except, attempt_try, bind, call. rewrite Hpost.
  unfold attempt_except, failure_action.
  destruct (exn_class_of e) as [| | | | | | | | | | | |[status|]] eqn:Hc;
    try reflexivity.
  rewrite (Hclass status eq_refl). reflexivity.
Qed.

Lemma call_model_reports_post_exception_witness :
  exists rendered,
    _call_model world_down (u "hi") 3 1 (initial_state []) =
    (Ok (failure_action refused),
     tick (request_of (self (initial_state [])) rendered (u "hi")) (initial_state [])).
Proof.
  assert (Hprompt : system_prompt (self (initial_state [])) = u system_prompt_text)
    by reflexivity.
  assert (Hmax : 0 < 3) by lia.
  assert (Hpost : forall url messages,
             requests_post world_down (clock (initial_state [])) url messages =
             Raise refused) by reflexivity.
  assert (Hclass : forall status,
             exn_class_of refused = RequestException (Some status) ->
             is_upstream_error status = false)
    by (intros status Hs; discriminate Hs).
  exact (call_model_reports_post_exception world_down (u "hi") 3 1 (initial_state [])
           refused Hprompt Hmax Hpost Hclass).
Defined.

(** X9: a successful answer whose body is an object without [choices], or
    with an empty list of them, gives the speak action for an unexpected
    response format, after one request. *)
Theorem call_model_without_choices (w : World) (prompt : pystr)
    (max_retries backoff_factor : Z) (s : State) (r : Response) (d : pydict) :
  system_prompt (self s) = u system_prompt_text ->
  0 < max_retries ->
  (forall url messages, requests_post w (clock s) url messages = Ok r) ->
  ~ 400 <= status_code r < 600 ->
  json_body r = Ok (PyDict d) ->
  dict_lookup d (u "choices") = None \/ dict_lookup d (u "choices") = Some (PyList []) ->
  exists rendered,
    _call_model w prompt max_retries backoff_factor s =
    (Ok (speak_action (u "API返回了意外的格式。") (u "API响应错误")),
     tick (request_of (self s) rendered prompt) s).
Proof.
  intros Hprompt Hmax Hpost Hstatus Hjson Hchoices.
  destruct (call_model_unfold w prompt max_retries backoff_factor s Hprompt)
    as [rendered ->].
  exists rendered.
  destruct (Z.to_nat max_retries) as [|remaining] eqn:Hn; [lia|].
  apply attempts_first_pass.
  unfold try_except, attempt_try, bind, call, lift, ret. rewrite Hpost.
  rewrite (Transport.not_upstream _ Hstatus),
    (Transport.raise_for_status_ok _ r _ Hstatus), Hjson.
  cbn [py_contains getitem_str].
  destruct Hchoices as [-> | ->]; reflexivity.
Qed.

Lemma call_model_without_choices_witness :
  exists rendered,
    _call_model world_no_choice (u "hi") 3 1 (initial_state []) =
    (Ok (speak_action (u "API返回了意外的格式。") (u "API响应错误")),
     tick (request_of (self (initial_state [])) rendered (u "hi")) (initial_state [])).
Proof.
  assert (Hprompt : system_prompt (self (initial_state [])) = u system_prompt_text)
    by reflexivity.
  assert (Hmax : 0 < 3) by lia.
  assert (Hpost : forall url messages,
             requests_post world_no_choice (clock (initial_state [])) url messages =
             Ok no_choice) by reflexivity.
  assert (Hstatus : ~ 400 <= status_code no_choice < 600)
    by (cbn [status_code no_choice]; lia).
  assert (Hjson : json_body no_choice = Ok (PyDict [ (u "choices", PyList []) ]))
    by reflexivity.
  assert (Hchoices :
            dict_lookup [ (u "choices", PyList []) ] (u "choices") = None \/
            dict_lookup [ (u "choices", PyList []) ] (u "choices") = Some (PyList []))
    by (right; vm_compute; reflexivity).
  exact (call_model_without_choices world_no_choice (u "hi") 3 1 (initial_state [])
           no_choice [ (u "choices", PyList []) ] Hprompt Hmax Hpost Hstatus Hjson
           Hchoices).
Defined.

(** ** Retrying until the endpoint answers *)

(** A pass that meets a 5xx answer before the last attempt sleeps and goes
    round again. *)
Lemma attempt_try_retries w url messages max_retries backoff_factor attempt s r :
  requests_post w (clock s) url messages = Ok r ->
  500 <= status_code r < 600 ->
  attempt < max_retries - 1 ->
  0 <= backoff_factor -> 0 <= attempt ->
  attempt_try w url messages max_retries backoff_factor attempt s =
  (Ok Continue,
   tick (EvSleep (backoff_factor * 2 ^ attempt)) (tick (EvPost url messages) s)).
Proof.
  intros Hpost H5xx Hlast Hbackoff Hattempt.
  unfold attempt_try, bind, call, ret, time_sleep. rewrite Hpost.
  rewrite (Transport.upstream_5xx _ H5xx).
  replace (attempt <? max_retries - 1) with true by (symmetry; apply Z.ltb_lt; lia).
  rewrite (sleep_nonneg _ _ Hbackoff Hattempt). reflexivity.
Qed.

Lemma attempts_recover w url messages max_retries backoff_factor r data content :
  0 <= backoff_factor ->
  ~ 400 <= status_code r < 600 ->
  json_body r = Ok data ->
  carries_content data content ->
  (forall e response, json_loads w (strip content) = Raise e ->
                      exn_class_of e <> RequestException response) ->
  forall k remaining attempt s,
    (k < remaining)%nat ->
    0 <= attempt ->
    attempt + Z.of_nat remaining = max_retries ->
    (forall i, (i < k)%nat ->
               exists r5, requests_post w (clock s + 2 * i)%nat url messages = Ok r5 /\
                          500 <= status_code r5 < 600) ->
    requests_post w (clock s + 2 * k)%nat url messages = Ok r ->
    exists s',
      attempts w url messages max_retries backoff_factor remaining attempt s =
        (Ok (completion_outcome w content), s') /\
      trace s' =
        trace s ++ retry_events url messages backoff_factor attempt k ++
        [EvPost url messages].
Proof.
  intros Hbackoff Hstatus Hjson Hcontent Hloads.
  induction k as [|k IH]; intros remaining attempt s Hk Hattempt Hsum Hfail Hok;
    (destruct remaining as [|remaining]; [lia|]).
  - replace (clock s + 2 * 0)%nat with (clock s) in Hok by lia.
    eexists. split.
    + apply attempts_first_pass.
      apply (Transport.attempt_try_completion w url messages max_retries
               backoff_factor attempt s r data content Hok Hstatus Hjson Hcontent
               Hloads).
    + reflexivity.
  - destruct (Hfail 0%nat ltac:(lia)) as [r5 [Hpost H5xx]].
    replace (clock s + 2 * 0)%nat with (clock s) in Hpost by lia.
    cbn [attempts]. unfold bind at 1, try_except.
    rewrite (attempt_try_retries w url messages max_retries backoff_factor attempt s r5
               Hpost H5xx ltac:(lia) Hbackoff Hattempt).
    destruct (IH remaining (attempt + 1)
                (tick (EvSleep (backoff_factor * 2 ^ attempt))
                   (tick (EvPost url messages) s)))
      as [s' [Hrun Htrace]].
    + lia.
    + lia.
    + lia.
    + intros i Hi. cbn [tick clock].
      replace (S (S (clock s)) + 2 * i)%nat with (clock s + 2 * S i)%nat by lia.
      apply Hfail. lia.
    + cbn [tick clock].
      replace (S (S (clock s)) + 2 * k)%nat with (clock s + 2 * S k)%nat by lia.
      exact Hok.
    + exists s'. split; [exact Hrun|].
      rewrite Htrace. cbn [tick trace retry_events].
      rewrite <- !app_assoc. reflexivity.
Qed.

(** X10: when the endpoint answers 5xx to the first [k] attempts and then
    sends a completion, with [k] below [max_retries], [_call_model]
    returns what it returns for that completion (the parsed value; the
    parse-failure speak action when the text is not JSON; the
    unexpected-error speak action when [json.loads] fails in another
    way); it posts [k + 1] times, and after the failed attempt number [i]
    it sleeps [backoff_factor * 2 ** i] seconds.  The last hypothesis says
    that [json.loads] raises nothing of the requests library. *)
Theorem call_model_recovers_after_retries (w : World) (prompt : pystr)
    (max_retries backoff_factor : Z) (s : State) (k : nat) (r : Response)
    (data : pyval) (content : pystr) :
  system_prompt (self s) = u system_prompt_text ->
  0 <= backoff_factor ->
  Z.of_nat k < max_retries ->
  (forall i url messages, (i < k)%nat ->
     exists r5, requests_post w (clock s + 2 * i)%nat url messages = Ok r5 /\
                500 <= status_code r5 < 600) ->
  (forall url messages, requests_post w (clock s + 2 * k)%nat url messages = Ok r) ->
  ~ 400 <= status_code r < 600 ->
  json_body r = Ok data ->
  carries_content data content ->
  (forall e response, json_loads w (strip content) = Raise e ->
                      exn_class_of e <> RequestException response) ->
  exists rendered s',
    _call_model w prompt max_retries backoff_factor s =
      (Ok (completion_outcome w content), s') /\
    trace s' =
      trace s ++
      retry_events (endpoint (self s))
        ([Turn (u "system") rendered] ++ session_history (self s) ++
         [Turn (u "user") prompt]) backoff_factor 0 k ++
      [request_of (self s) rendered prompt].
Proof.
  intros Hprompt Hbackoff Hk Hfail Hok Hstatus Hjson Hcontent Hloads.
  destruct (call_model_unfold w prompt max_retries backoff_factor s Hprompt)
    as [rendered ->].
  exists rendered.
  apply (attempts_recover w _ _ max_retries backoff_factor r data content
           Hbackoff Hstatus Hjson Hcontent Hloads k (Z.to_nat max_retries) 0 s).
  - lia.
  - lia.
  - lia.
  - intros i Hi. apply Hfail. exact Hi.
  - apply Hok.
Qed.

Lemma call_model_recovers_witness :
  exists rendered s',
    _call_model world_flaky (u "hi") 3 1 (initial_state []) =
      (Ok (completion_outcome world_flaky hello_text), s') /\
    trace s' =
      trace (initial_state []) ++
      retry_events (endpoint (self (initial_state [])))
        ([Turn (u "system") rendered] ++ session_history (self (initial_state [])) ++
         [Turn (u "user") (u "hi")]) 1 0 2 ++
      [request_of (self (initial_state [])) rendered (u "hi")].
Proof.
  assert (Hprompt : system_prompt (self (initial_state [])) = u system_prompt_text)
    by reflexivity.
  assert (Hbackoff : 0 <= 1) by lia.
  assert (Hk : Z.of_nat 2 < 3) by reflexivity.
  assert (Hfail : forall i url messages, (i < 2)%nat ->
             exists r5,
               requests_post world_flaky (clock (initial_state []) + 2 * i)%nat url
                 messages = Ok r5 /\ 500 <= status_code r5 < 600).
  { intros i url messages Hi.
    exists (mkResponse 504 (u "Gateway Timeout") (Ok PyNone)). split.
    - destruct i as [|[|i]]; [reflexivity | reflexivity | lia].
    - cbn [status_code]. lia. }
  assert (Hok : forall url messages,
             requests_post world_flaky (clock (initial_state []) + 2 * 2)%nat url
               messages = Ok (mkResponse 200 (u "OK") (Ok (completion hello_text))))
    by reflexivity.
  assert (Hstatus : ~ 400 <= status_code
                        (mkResponse 200 (u "OK") (Ok (completion hello_text))) < 600)
    by (cbn [status_code]; lia).
  assert (Hjson : json_body (mkResponse 200 (u "OK") (Ok (completion hello_text))) =
                  Ok (completion hello_text)) by reflexivity.
  assert (Hcontent : carries_content (completion hello_text) hello_text).
  { unfold carries_content, completion. do 4 eexists.
    split; [reflexivity|]. split; [vm_compute; reflexivity|].
    split; vm_compute; reflexivity. }
  assert (Hloads : forall e response,
             json_loads world_flaky (strip hello_text) = Raise e ->
             exn_class_of e <> RequestException response).
  { intros e response He. vm_compute in He. discriminate He. }
  exact (call_model_recovers_after_retries world_flaky (u "hi") 3 1 (initial_state [])
           2 (mkResponse 200 (u "OK") (Ok (completion hello_text)))
           (completion hello_text) hello_text
           Hprompt Hbackoff Hk Hfail Hok Hstatus Hjson Hcontent Hloads).
Defined.

End TransportFacts.

(** * The prompt template *)

Module PromptFacts.

Lemma len_cons {A} (x : A) (l : list A) : len (x :: l) = 1 + len l.
Proof. unfold len. cbn [List.length]. lia. Qed.

Lemma len_app {A} (l1 l2 : list A) : len (l1 ++ l2) = len l1 + len l2.
Proof. unfold len. rewrite length_app. lia. Qed.

(** X11: the prompt that [__init__] stores is a well-formed template:
    for every working directory, formatting it succeeds, and the rendered
    prompt is the template with its eight doubled braces halved and its
    two fields filled, that is 25 code points shorter than the template
    plus the length of the directory. *)
Theorem init_prompt_renders_for_every_cwd (w : World) (key prompt : pystr)
    (history : list turn) :
  exists rendered,
    build_messages w (set_history (__init__ key) history) prompt =
      Ok ([Turn (u "system") rendered] ++ history ++ [Turn (u "user") prompt]) /\
    len rendered = len (system_prompt (__init__ key)) - 25 + len (getcwd w).
Proof.
  unfold build_messages.
  change (system_prompt (set_history (__init__ key) history))
    with (u system_prompt_text).
  change (session_history (set_history (__init__ key) history)) with history.
  pose (blank := match str_format (u system_prompt_text)
                         [ (u "working_dir", []); (u "current_date", u "2025-12-10") ]
                 with Ok r => r | Raise _ => [] end).
  assert (Hrender :
            str_format (u system_prompt_text)
              [ (u "working_dir", getcwd w); (u "current_date", u "2025-12-10") ] =
            Ok (firstn 661 blank ++ getcwd w ++ skipn 661 blank))
    by (vm_compute; reflexivity).
  assert (Hlen : len (firstn 661 blank ++ getcwd w ++ skipn 661 blank) =
                 681 + len (getcwd w)).
  { rewrite !len_app.
    replace (len (firstn 661 blank)) with 661 by (vm_compute; reflexivity).
    replace (len (skipn 661 blank)) with 20 by (vm_compute; reflexivity).
    lia. }
  rewrite Hrender. eexists. split; [reflexivity|]. rewrite Hlen.
  replace (len (system_prompt (__init__ key))) with 706 by (vm_compute; reflexivity).
  lia.
Qed.

End PromptFacts.

(** * More about the executor *)

Module ExecutorFacts.
Import Examples ExecutorExamples.

Lemma dispatch_command (w : World) (d : pydict) :
  dict_lookup d (u "action") = Some (PyStr (u "command")) ->
  _execute_action w (PyDict d) = command_branch w (dict_get d (u "command")).
Proof.
  intros Hkind. unfold _execute_action.
  rewrite (Executor.dict_get_lookup d (u "action")), Hkind.
  replace (eq_str (PyStr (u "command")) (u "command")) with true
    by (vm_compute; reflexivity).
  reflexivity.
Qed.

Lemma dispatch_read_file (w : World) (d : pydict) :
  dict_lookup d (u "action") = Some (PyStr (u "read_file")) ->
  _execute_action w (PyDict d) = read_file_branch w (dict_get d (u "path")).
Proof.
  intros Hkind. unfold _execute_action.
  rewrite (Executor.dict_get_lookup d (u "action")), Hkind.
  replace (eq_str (PyStr (u "read_file")) (u "command")) with false
    by (vm_compute; reflexivity).
  replace (eq_str (PyStr (u "read_file")) (u "read_file")) with true
    by (vm_compute; reflexivity).
  reflexivity.
Qed.

(** X12: the executor never changes the agent object and never calls the
    HTTP endpoint, whatever the payload and whatever the world answers,
    also when it raises. *)
Theorem execute_action_no_http (w : World) (action_obj : pyval) (s : State) :
  self (snd (_execute_action w action_obj s)) = self s /\
  exists evs,
    trace (snd (_execute_action w action_obj s)) = trace s ++ evs /\
    Forall not_post evs.
Proof.
  exact (Executor.execute_action_frame w action_obj s s (extends_refl not_post s)).
Qed.

(** X13: a payload that is no dict, or whose kind is none of command,
    read_file and write_file (speak, an unknown kind, a missing kind),
    asks nothing of the world: no command is run, no path is resolved, no
    file is read, opened or written, no request is sent. *)
Theorem execute_action_without_effect (w : World) (action_obj : pyval) (s : State) :
  (forall d, action_obj = PyDict d ->
             eq_str (dict_get d (u "action")) (u "command") = false /\
             eq_str (dict_get d (u "action")) (u "read_file") = false /\
             eq_str (dict_get d (u "action")) (u "write_file") = false) ->
  snd (_execute_action w action_obj s) = s.
Proof.
  intros Hkind. unfold _execute_action.
  destruct action_obj as [| | | | |d]; try reflexivity.
  destruct (Hkind d eq_refl) as [-> [-> ->]].
  destruct (eq_str (dict_get d (u "action")) (u "speak")); reflexivity.
Qed.

Lemma execute_action_without_effect_witness :
  snd (_execute_action world_hello (PyDict dance) (initial_state [])) = initial_state [].
Proof.
  assert (Hkind : forall d, PyDict dance = PyDict d ->
             eq_str (dict_get d (u "action")) (u "command") = false /\
             eq_str (dict_get d (u "action")) (u "read_file") = false /\
             eq_str (dict_get d (u "action")) (u "write_file") = false).
  { intros d Hd. injection Hd as <-. repeat split; vm_compute; reflexivity. }
  exact (execute_action_without_effect world_hello (PyDict dance) (initial_state [])
           Hkind).
Defined.

(** X14: an action that lacks what its kind requires is reported and
    nothing is asked of the world: a command without a command (or with an
    empty one), a read_file without a path, a write_file without a path
    or without a content. *)
Theorem missing_field_is_reported_without_effect (w : World) (d : pydict) (s : State) :
  (dict_lookup d (u "action") = Some (PyStr (u "command")) ->
   truthy (dict_get d (u "command")) = false ->
   _execute_action w (PyDict d) s =
   (Ok (result_dict (u "No command provided in action object.")), s)) /\
  (dict_lookup d (u "action") = Some (PyStr (u "read_file")) ->
   truthy (dict_get d (u "path")) = false ->
   _execute_action w (PyDict d) s =
   (Ok (result_dict (u "No file path provided in action object.")), s)) /\
  (dict_lookup d (u "action") = Some (PyStr (u "write_file")) ->
   truthy (dict_get d (u "path")) = false \/ dict_get d (u "content") = PyNone ->
   _execute_action w (PyDict d) s = (Ok no_path_or_content, s)).
Proof.
  split; [|split].
  - intros Hkind Hfalsy. rewrite (dispatch_command w d Hkind).
    unfold command_branch. rewrite Hfalsy. reflexivity.
  - intros Hkind Hfalsy. rewrite (dispatch_read_file w d Hkind).
    unfold read_file_branch. rewrite Hfalsy. reflexivity.
  - intros Hkind Hmissing. rewrite (Executor.write_file_dispatch w d Hkind).
    unfold write_file_branch.
    destruct Hmissing as [-> | ->]; [reflexivity|].
    rewrite orb_true_r. reflexivity.
Qed.

Lemma missing_field_witness :
  _execute_action world_hello (PyDict no_command) (initial_state []) =
  (Ok (result_dict (u "No command provided in action object.")), initial_state []).
Proof.
  assert (Hkind : dict_lookup no_command (u "action") = Some (PyStr (u "command")))
    by (vm_compute; reflexivity).
  assert (Hfalsy : truthy (dict_get no_command (u "command")) = false)
    by (vm_compute; reflexivity).
  exact (proj1 (missing_field_is_reported_without_effect world_hello no_command
                  (initial_state [])) Hkind Hfalsy).
Defined.

(** X15: a command action runs the given command once and asks nothing
    else of the world; whatever the shell does, the outcome is a result
    dict. *)
Theorem command_runs_once (w : World) (d : pydict) (s : State) :
  dict_lookup d (u "action") = Some (PyStr (u "command")) ->
  truthy (dict_get d (u "command")) = true ->
  exists text,
    _execute_action w (PyDict d) s =
    (Ok (result_dict text), tick (EvRun (dict_get d (u "command"))) s).
Proof.
  intros Hkind Htruthy. rewrite (dispatch_command w d Hkind).
  unfold command_branch. rewrite Htruthy. cbn [negb].
  unfold try_except, bind, call, ret.
  destruct (subprocess_run w (clock s) (dict_get d (u "command"))) as [result|e].
  - eexists. reflexivity.
  - destruct (exn_class_of e); eexists; reflexivity.
Qed.

Lemma command_runs_once_witness :
  exists text,
    _execute_action world_hello (PyDict ls_command) (initial_state []) =
    (Ok (result_dict text),
     tick (EvRun (dict_get ls_command (u "command"))) (initial_state [])).
Proof.
  assert (Hkind : dict_lookup ls_command (u "action") = Some (PyStr (u "command")))
    by (vm_compute; reflexivity).
  assert (Htruthy : truthy (dict_get ls_command (u "command")) = true)
    by (vm_compute; reflexivity).
  exact (command_runs_once world_hello ls_command (initial_state []) Hkind Htruthy).
Defined.

(** X16: a read_file action only looks: all it asks of the world is to
    resolve the path, to test for a regular file and to read text; it
    runs no command and writes nothing. *)
Theorem read_file_only_reads (w : World) (d : pydict) (s : State) :
  dict_lookup d (u "action") = Some (PyStr (u "read_file")) ->
  exists evs,
    trace (snd (_execute_action w (PyDict d) s)) = trace s ++ evs /\
    Forall reads_only evs.
Proof.
  intros Hkind. rewrite (dispatch_read_file w d Hkind).
  assert (Hframe : wp (read_file_branch w (dict_get d (u "path")))
                     (fun _ s' => extends reads_only s s') s).
  { generalize (extends_refl reads_only s). generalize s at 1 3.
    intros s0 Hs. unfold read_file_branch, Path_resolve, Path.
    wp_run; repeat (apply extends_tick; [|exact I]); exact Hs. }
  exact (proj2 Hframe).
Qed.

Lemma read_file_only_reads_witness :
  exists evs,
    trace (snd (_execute_action world_hello (PyDict read_notes) (initial_state []))) =
      trace (initial_state []) ++ evs /\
    Forall reads_only evs.
Proof.
  assert (Hkind : dict_lookup read_notes (u "action") = Some (PyStr (u "read_file")))
    by (vm_compute; reflexivity).
  exact (read_file_only_reads world_hello read_notes (initial_state []) Hkind).
Defined.

(** X18: when a regular file is not valid UTF-8, the executor reads it
    again as latin-1 and returns that content; any failure of this second
    read, of whatever class, is reported as an unreadable file. *)
Theorem read_file_falls_back_to_latin1 (w : World) (d : pydict) (s : State)
    (p file_path : pystr) (e : exn) :
  dict_lookup d (u "action") = Some (PyStr (u "read_file")) ->
  dict_get d (u "path") = PyStr p ->
  p <> [] ->
  path_resolve w (clock s) p = Ok file_path ->
  path_is_file w (S (clock s)) file_path = Ok true ->
  path_read_text w (S (S (clock s))) file_path (u "utf-8") = Raise e ->
  exn_class_of e = UnicodeDecodeError ->
  fst (_execute_action w (PyDict d) s) =
  Ok (result_dict
        match path_read_text w (S (S (S (clock s)))) file_path (u "latin-1") with
        | Ok content =>
            u "Successfully read file '" ++ file_path ++ u "'. Content:" ++ NL ++ content
        | Raise _ =>
            u "Could not read file " ++ file_path ++ u " with common encodings."
        end).
Proof.
  intros Hkind Hpath Hne Hresolve Hfile Hutf8 Hclass.
  rewrite (dispatch_read_file w d Hkind), Hpath.
  unfold read_file_branch.
  replace (truthy (PyStr p)) with true by (destruct p; [contradiction | reflexivity]).
  cbn [negb]. unfold Path_resolve, Path, try_except, bind, call, ret, raise.
  rewrite Hresolve. cbn [tick clock]. rewrite Hfile. cbn [negb]. cbv zeta.
  unfold bind, call. cbn [tick clock]. rewrite Hutf8, Hclass. cbn [tick clock].
  destruct (path_read_text w (S (S (S (clock s)))) file_path (u "latin-1"));
    reflexivity.
Qed.

Lemma read_file_falls_back_witness :
  fst (_execute_action world_latin1 (PyDict read_notes) (initial_state [])) =
  Ok (result_dict
        match path_read_text world_latin1 (S (S (S (clock (initial_state [])))))
                (u "/tmp/notes.txt") (u "latin-1") with
        | Ok content =>
            u "Successfully read file '" ++ u "/tmp/notes.txt" ++ u "'. Content:" ++
            NL ++ content
        | Raise _ =>
            u "Could not read file " ++ u "/tmp/notes.txt" ++ u " with common encodings."
        end).
Proof.
  assert (Hkind : dict_lookup read_notes (u "action") = Some (PyStr (u "read_file")))
    by (vm_compute; reflexivity).
  assert (Hpath : dict_get read_notes (u "path") = PyStr (u "/tmp/notes.txt"))
    by (vm_compute; reflexivity).
  assert (Hne : u "/tmp/notes.txt" <> []) by (vm_compute; discriminate).
  assert (Hresolve : path_resolve world_latin1 (clock (initial_state []))
                       (u "/tmp/notes.txt") = Ok (u "/tmp/notes.txt")) by reflexivity.
  assert (Hfile : path_is_file world_latin1 (S (clock (initial_state [])))
                    (u "/tmp/notes.txt") = Ok true) by reflexivity.
  assert (Hutf8 : path_read_text world_latin1 (S (S (clock (initial_state []))))
                    (u "/tmp/notes.txt") (u "utf-8") = Raise bad_utf8)
    by (vm_compute; reflexivity).
  assert (Hclass : exn_class_of bad_utf8 = UnicodeDecodeError) by reflexivity.
  exact (read_file_falls_back_to_latin1 world_latin1 read_notes (initial_state [])
           (u "/tmp/notes.txt") (u "/tmp/notes.txt") bad_utf8
           Hkind Hpath Hne Hresolve Hfile Hutf8 Hclass).
Defined.

(** X19: a write_file action whose content is present but is no string is
    caught late: the parent directories are made and the file is opened
    for writing, which empties it, before the write is refused; nothing is
    written and the outcome is the error result. *)
Theorem write_file_opens_before_refusing_content (w : World) (d : pydict) (s : State)
    (p file_path : pystr) :
  dict_lookup d (u "action") = Some (PyStr (u "write_file")) ->
  dict_get d (u "path") = PyStr p ->
  p <> [] ->
  (forall data, dict_get d (u "content") <> PyStr data) ->
  dict_get d (u "content") <> PyNone ->
  path_resolve w (clock s) p = Ok file_path ->
  parent_mkdir w (S (clock s)) file_path = Ok tt ->
  open_w w (S (S (clock s))) file_path = Ok tt ->
  exists s',
    _execute_action w (PyDict d) s =
    (Ok (result_dict
           (u "An error occurred while writing file '" ++ file_path ++ u "': " ++
            u "write() argument must be str, not " ++
            type_name (dict_get d (u "content")))), s') /\
    trace s' = trace s ++ [EvResolve p; EvMkdir file_path; EvOpen file_path].
Proof.
  intros Hkind Hpath Hne Hnostr Hnonone Hresolve Hmkdir Hopen.
  rewrite (Executor.write_file_dispatch w d Hkind), Hpath.
  unfold write_file_branch.
  replace (truthy (PyStr p)) with true by (destruct p; [contradiction | reflexivity]).
  replace (is_none (dict_get d (u "content"))) with false
    by (destruct (dict_get d (u "content")); [contradiction | reflexivity ..]).
  cbn [negb orb].
  unfold write_file_proceed, Path_resolve, Path, try_except, bind, call, ret.
  rewrite Hresolve. cbn [tick clock]. rewrite Hmkdir. cbn [tick clock]. rewrite Hopen.
  unfold f_write.
  destruct (dict_get d (u "content")) as [| | |data| |] eqn:Hc;
    try (eexists; split; [reflexivity|]; cbn [tick trace];
         rewrite <- !app_assoc; reflexivity).
  exfalso. exact (Hnostr data eq_refl).
Qed.

Lemma write_file_opens_witness :
  exists s',
    _execute_action world_hello (PyDict write_number) (initial_state []) =
    (Ok (result_dict
           (u "An error occurred while writing file '" ++ u "/tmp/notes.txt" ++ u "': " ++
            u "write() argument must be str, not " ++
            type_name (dict_get write_number (u "content")))), s') /\
    trace s' =
      trace (initial_state []) ++
      [EvResolve (u "/tmp/notes.txt"); EvMkdir (u "/tmp/notes.txt");
       EvOpen (u "/tmp/notes.txt")].
Proof.
  assert (Hkind : dict_lookup write_number (u "action") = Some (PyStr (u "write_file")))
    by (vm_compute; reflexivity).
  assert (Hpath : dict_get write_number (u "path") = PyStr (u "/tmp/notes.txt"))
    by (vm_compute; reflexivity).
  assert (Hne : u "/tmp/notes.txt" <> []) by (vm_compute; discriminate).
  assert (Hnostr : forall data, dict_get write_number (u "content") <> PyStr data)
    by (intros data; vm_compute; discriminate).
  assert (Hnonone : dict_get write_number (u "content") <> PyNone)
    by (vm_compute; discriminate).
  assert (Hresolve : path_resolve world_hello (clock (initial_state []))
                       (u "/tmp/notes.txt") = Ok (u "/tmp/notes.txt")) by reflexivity.
  assert (Hmkdir : parent_mkdir world_hello (S (clock (initial_state [])))
                     (u "/tmp/notes.txt") = Ok tt) by reflexivity.
  assert (Hopen : open_w world_hello (S (S (clock (initial_state []))))
                    (u "/tmp/notes.txt") = Ok tt) by reflexivity.
  exact (write_file_opens_before_refusing_content world_hello write_number
           (initial_state []) (u "/tmp/notes.txt") (u "/tmp/notes.txt")
           Hkind Hpath Hne Hnostr Hnonone Hresolve Hmkdir Hopen).
Defined.

End ExecutorFacts.

(** * More about the turn loop *)

Module OrchestratorFacts.
Import Examples RunExamples.

(** X20: [run] never raises: whatever the user types and whatever the
    world answers, every exception of a turn is caught and the loop ends
    normally. *)
Theorem run_never_raises (w : World) (stdin : list input_event) (s : State) :
  fst (run w stdin s) = Ok tt.
Proof.
  unfold run. revert s.
  induction stdin as [|[text|] rest IH]; intros s; cbn [run_loop];
    try reflexivity.
  cbv zeta. destruct (strip text) as [|c user_input]; [apply IH|].
  destruct (existsb _ _); [reflexivity|].
  unfold bind at 1, try_except.
  match goal with
  | |- context [match ?body s with _ => _ end] => destruct (body s) as [[go_on|e] s']
  end.
  - destruct go_on; [apply IH | reflexivity].
  - reflexivity.
Qed.

(** A property of the agent object that recording a turn and truncating
    keep is kept by the inner loop and by the whole run. *)
Lemma inner_loop_keeps (P : Agent -> Prop) (w : World) (user_input : pystr) :
  (forall t a, P a -> P (record t a)) ->
  (forall a, P a -> P (_truncate_history a)) ->
  forall fuel step_count final_response s,
    P (self s) ->
    wp (inner_loop w user_input fuel step_count final_response)
       (fun _ s' => P (self s')) s.
Proof.
  intros Hrecord Htruncate.
  induction fuel as [|fuel IH]; intros step_count final_response s HP;
    cbn [inner_loop].
  { apply wp_ret. exact HP. }
  destruct (step_count <? max_steps_per_input); [|apply wp_ret; exact HP].
  apply wp_bind. eapply wp_conseq; [apply Transport.call_model_frame|].
  cbv beta. intros out s1 [Hself1 _]. rewrite <- Hself1 in HP.
  destruct out as [action_to_take|e]; [|exact HP].
  destruct action_to_take as [| | | | |d]; try (apply wp_ret; exact HP).
  apply wp_bind. eapply wp_conseq;
    [apply (Executor.execute_action_frame w (PyDict d) s1 s1), extends_refl|].
  cbv beta. intros out s2 [Hself2 _]. rewrite <- Hself2 in HP.
  destruct out as [execution_result|e]; [|exact HP].
  apply wp_bind, wp_modify_self. cbv beta iota.
  apply wp_bind, wp_lift.
  destruct (getitem_str execution_result (u "result")) as [text|e];
    [|apply Hrecord; exact HP].
  apply wp_bind, wp_modify_self. cbv beta iota.
  destruct (eq_str (dict_get d (u "action")) (u "speak")).
  { apply wp_ret. apply Hrecord, Hrecord, HP. }
  apply wp_bind, wp_modify_self. cbv beta iota.
  apply IH. apply Htruncate, Hrecord, Hrecord, HP.
Qed.

Lemma run_loop_keeps (P : Agent -> Prop) (w : World) :
  (forall t a, P a -> P (record t a)) ->
  (forall a, P a -> P (_truncate_history a)) ->
  forall stdin s,
    P (self s) -> wp (run_loop w stdin) (fun _ s' => P (self s')) s.
Proof.
  intros Hrecord Htruncate.
  induction stdin as [|[text|] rest IH]; intros s HP; cbn [run_loop];
    try (apply wp_ret; exact HP).
  cbv zeta. destruct (strip text) as [|c user_input]; [apply IH, HP|].
  destruct (existsb _ _); [apply wp_ret; exact HP|].
  apply wp_bind, wp_try, wp_bind, wp_modify_self. cbv beta iota.
  apply wp_bind. eapply wp_conseq.
  { apply (inner_loop_keeps P w (c :: user_input) Hrecord Htruncate).
    apply Hrecord, HP. }
  cbv beta. intros out s' HP'.
  destruct out as [final_response|e]; apply wp_ret; cbv beta iota.
  - apply IH, HP'.
  - apply wp_ret. exact HP'.
Qed.

(** X21: a run never changes the configuration of the agent: the API key,
    the base URL, the character budget and the system prompt are at the
    end what they were at the start. *)
Theorem run_keeps_config (w : World) (stdin : list input_event) (s : State) :
  config (self (snd (run w stdin s))) = config (self s).
Proof.
  exact (run_loop_keeps (fun a => config a = config (self s)) w
           (fun t a H => H) (fun a H => H) stdin s eq_refl).
Qed.

(** X22: when the model hands back a value that is no dict, the inner
    loop stops at once: the value is not executed, nothing is recorded
    (the history is what it was before the model was asked) and the
    final response is left as it was. *)
Theorem non_dict_decision_stops_loop (w : World) (user_input : pystr) (fuel : nat)
    (step_count : Z) (final_response v : pyval) (s s1 : State) :
  step_count < max_steps_per_input ->
  _call_model w (if step_count + 1 =? 1 then user_input else []) 3 1 s = (Ok v, s1) ->
  isinstance_dict v = false ->
  inner_loop w user_input (S fuel) step_count final_response s =
    (Ok final_response, s1) /\
  session_history (self s1) = session_history (self s).
Proof.
  intros Hstep Hcall Hdict. split.
  - cbn [inner_loop].
    replace (step_count <? max_steps_per_input) with true
      by (symmetry; apply Z.ltb_lt; exact Hstep).
    unfold bind at 1. rewrite Hcall.
    destruct v; try reflexivity. discriminate Hdict.
  - pose proof (Transport.call_model_frame w
                  (if step_count + 1 =? 1 then user_input else []) 3 1 s) as Hframe.
    unfold wp in Hframe. rewrite Hcall in Hframe. destruct Hframe as [Hself _].
    cbn [snd] in Hself. rewrite Hself. reflexivity.
Qed.

Lemma non_dict_decision_witness :
  inner_loop world_42 (u "hi") 10 0 (PyStr []) state_hi = (Ok (PyStr []), after_42) /\
  session_history (self after_42) = session_history (self state_hi).
Proof.
  assert (Hstep : 0 < max_steps_per_input) by reflexivity.
  assert (Hcall : _call_model world_42 (if 0 + 1 =? 1 then u "hi" else []) 3 1 state_hi =
                  (Ok (PyInt 42), after_42)) by (vm_compute; reflexivity).
  assert (Hdict : isinstance_dict (PyInt 42) = false) by reflexivity.
  exact (non_dict_decision_stops_loop world_42 (u "hi") 9 0 (PyStr []) (PyInt 42)
           state_hi after_42 Hstep Hcall Hdict).
Defined.

(** ** How much one input may ask of the world *)

Lemma count_runs_tick ev s :
  count_runs (trace (tick ev s)) = count_runs (trace s) + (if is_run ev then 1 else 0).
Proof.
  unfold count_runs, tick, len. cbn [trace].
  rewrite filter_app, length_app. cbn [filter].
  destruct (is_run ev); cbn [List.length]; lia.
Qed.

Lemma filter_none {A} (f : A -> bool) (P : A -> Prop) (l : list A) :
  (forall x, P x -> f x = false) -> Forall P l -> filter f l = [].
Proof.
  intros HP Hall. induction Hall as [|x l Hx _ IH]; cbn [filter]; [reflexivity|].
  rewrite (HP x Hx). exact IH.
Qed.

Lemma count_runs_extends (P : event -> Prop) s s' :
  (forall ev, P ev -> is_run ev = false) ->
  extends P s s' -> count_runs (trace s') = count_runs (trace s).
Proof.
  intros HP [_ [evs [-> Hevs]]]. unfold count_runs, len.
  rewrite filter_app, (filter_none is_run P evs HP Hevs), app_nil_r. reflexivity.
Qed.

Lemma count_posts_extends (P : event -> Prop) s s' :
  (forall ev, P ev -> is_post ev = false) ->
  extends P s s' -> count_posts (trace s') = count_posts (trace s).
Proof.
  intros HP [_ [evs [-> Hevs]]]. unfold count_posts, len.
  rewrite filter_app, (filter_none is_post P evs HP Hevs), app_nil_r. reflexivity.
Qed.

Lemma wp_and {A} (m : M A) (Q1 Q2 : result A -> State -> Prop) s :
  wp m Q1 s -> wp m Q2 s -> wp m (fun r s' => Q1 r s' /\ Q2 r s') s.
Proof. unfold wp. auto. Qed.

(** One model call: at most three requests, no command. *)
Lemma call_model_counts (w : World) (prompt : pystr) (s : State) :
  wp (_call_model w prompt 3 1)
     (fun _ s' => count_posts (trace s') <= count_posts (trace s) + 3 /\
                  count_runs (trace s') = count_runs (trace s)) s.
Proof.
  apply wp_and.
  - apply TransportFacts.call_model_post_bound; lia.
  - eapply wp_conseq; [apply Transport.call_model_frame|].
    cbv beta. intros _ s'. apply count_runs_extends.
    intros [| | | | | | | |]; cbn [asks is_run]; tauto.
Qed.

Lemma execute_action_run_bound (w : World) (action_obj : pyval) (s : State) (bound : Z) :
  count_runs (trace s) + 1 <= bound ->
  wp (_execute_action w action_obj) (fun _ s' => count_runs (trace s') <= bound) s.
Proof.
  intros Hbound.
  unfold _execute_action, command_branch, read_file_branch, write_file_branch,
    write_file_proceed, Path_resolve, Path, f_write.
  wp_run; rewrite ?count_runs_tick; cbn [is_run]; lia.
Qed.

(** One execution: no request, at most one command. *)
Lemma execute_action_counts (w : World) (action_obj : pyval) (s : State) :
  wp (_execute_action w action_obj)
     (fun _ s' => count_posts (trace s') = count_posts (trace s) /\
                  count_runs (trace s') <= count_runs (trace s) + 1) s.
Proof.
  apply wp_and.
  - eapply wp_conseq;
      [apply (Executor.execute_action_frame w action_obj s s), extends_refl|].
    cbv beta. intros _ s'. apply count_posts_extends. intros ev Hev. exact Hev.
  - apply execute_action_run_bound. lia.
Qed.

Lemma inner_loop_counts (w : World) (user_input : pystr) :
  forall fuel step_count final_response s,
    wp (inner_loop w user_input fuel step_count final_response)
       (fun _ s' =>
          count_posts (trace s') <= count_posts (trace s) + 3 * Z.of_nat fuel /\
          count_runs (trace s') <= count_runs (trace s) + Z.of_nat fuel) s.
Proof.
  induction fuel as [|fuel IH]; intros step_count final_response s;
    cbn [inner_loop].
  { apply wp_ret. cbn [Z.of_nat]. lia. }
  destruct (step_count <? max_steps_per_input); [|apply wp_ret; lia].
  apply wp_bind. eapply wp_conseq; [apply call_model_counts|].
  cbv beta. intros out s1 [Hposts1 Hruns1].
  destruct out as [action_to_take|e]; [|lia].
  destruct action_to_take as [| | | | |d]; try (apply wp_ret; lia).
  apply wp_bind. eapply wp_conseq; [apply execute_action_counts|].
  cbv beta. intros out s2 [Hposts2 Hruns2].
  destruct out as [execution_result|e]; [|lia].
  apply wp_bind, wp_modify_self. cbv beta iota.
  apply wp_bind, wp_lift.
  destruct (getitem_str execution_result (u "result")) as [text|e];
    [|cbn [with_self trace]; lia].
  apply wp_bind, wp_modify_self. cbv beta iota.
  destruct (eq_str (dict_get d (u "action")) (u "speak")).
  { apply wp_ret. cbn [with_self trace]. lia. }
  apply wp_bind, wp_modify_self. cbv beta iota.
  eapply wp_conseq; [apply IH|].
  cbv beta. intros _ s3. cbn [with_self trace]. lia.
Qed.

(** X23: the step cap bounds what a session may ask of the world: a run
    sends at most 30 HTTP requests (10 steps of at most 3 attempts) and
    runs at most 10 shell commands for each line the user types. *)
Theorem run_requests_and_commands_bounded (w : World) (stdin : list input_event)
    (s : State) :
  count_posts (trace (snd (run w stdin s))) <= count_posts (trace s) + 30 * len stdin /\
  count_runs (trace (snd (run w stdin s))) <= count_runs (trace s) + 10 * len stdin.
Proof.
  change (wp (run_loop w stdin)
            (fun _ s' =>
               count_posts (trace s') <= count_posts (trace s) + 30 * len stdin /\
               count_runs (trace s') <= count_runs (trace s) + 10 * len stdin) s).
  revert s.
  induction stdin as [|[text|] rest IH]; intros s; cbn [run_loop];
    try (apply wp_ret; unfold len; cbn [List.length]; lia).
  assert (Hlen : len (Line text :: rest) = 1 + len rest)
    by (unfold len; cbn [List.length]; lia).
  assert (Hnonneg : 0 <= len rest) by (unfold len; lia).
  rewrite Hlen.
  cbv zeta. destruct (strip text) as [|c user_input].
  { eapply wp_conseq; [apply IH|]. cbv beta. intros _ s'. lia. }
  destruct (existsb _ _); [apply wp_ret; lia|].
  apply wp_bind, wp_try, wp_bind, wp_modify_self. cbv beta iota.
  apply wp_bind. eapply wp_conseq; [apply inner_loop_counts|].
  cbv beta. intros out s1. cbn [with_self trace].
  change (Z.of_nat (Z.to_nat max_steps_per_input)) with 10.
  intros [Hposts Hruns].
  destruct out as [final_response|e]; apply wp_ret; cbv beta iota.
  - eapply wp_conseq; [apply IH|]. cbv beta. intros _ s2. lia.
  - apply wp_ret. lia.
Qed.

Lemma bind_ext {A B} (m : M A) (k1 k2 : A -> M B) s :
  (forall a s', k1 a s' = k2 a s') -> bind m k1 s = bind m k2 s.
Proof.
  intros Hk. unfold bind. destruct (m s) as [[a|e] s']; [apply Hk | reflexivity].
Qed.

(** X24: an exit keyword ends the session: once the user has typed
    [exit] or [quit] (in any letter case, with blanks around), nothing
    that follows on standard input is read, and the run is the run up to
    that line. *)
Theorem exit_keyword_ends_session (w : World) (before after : list input_event)
    (text : pystr) (s : State) :
  is_exit text = true ->
  run w (before ++ Line text :: after) s = run w (before ++ [Line text]) s.
Proof.
  intros Hexit. unfold run. revert s.
  induction before as [|[line|] before IH]; intros s; cbn [app run_loop].
  - unfold is_exit in Hexit. cbv zeta.
    destruct (strip text) as [|c user_input]; [discriminate Hexit|].
    rewrite Hexit. reflexivity.
  - cbv zeta. destruct (strip line) as [|c user_input]; [apply IH|].
    destruct (existsb _ _); [reflexivity|].
    apply bind_ext. intros [|] s'; [apply IH | reflexivity].
  - reflexivity.
Qed.

Lemma exit_keyword_witness :
  run world_hello ([Line (u "list the files"); Line (u "   ")] ++
                   Line (u " Quit ") :: [Line (u "more"); CtrlC]) (initial_state []) =
  run world_hello ([Line (u "list the files"); Line (u "   ")] ++ [Line (u " Quit ")])
    (initial_state []).
Proof.
  assert (Hexit : is_exit (u " Quit ") = true) by (vm_compute; reflexivity).
  exact (exit_keyword_ends_session world_hello
           [Line (u "list the files"); Line (u "   ")] [Line (u "more"); CtrlC]
           (u " Quit ") (initial_state []) Hexit).
Defined.

End OrchestratorFacts.
